(** * afctl: credential provisioning and tool-connection commands

    A shallow embedding of the command functions of
    [af_cli/commands/tools.py] ([add], [connect], [disconnect]) and
    [af_cli/commands/applications.py] ([connect_application],
    [list_applications]), and the properties of the design document that
    concern them.

    Conventions of the embedding.
    - JSON data returned by the gateway is a [value]; a Python [dict] is an
      association list in insertion order.
    - A Python exception is an [exn]; [typer.Exit] is [Exit], which is a
      [RuntimeError] and therefore caught by [except Exception].
    - An f-string is a [message]: literal text and [str]-typed variables are
      concatenated, an interpolated JSON value or exception is kept as a
      fragment of its own ([Val], [Exc]) instead of being rendered.
    - Everything a command does to its collaborators (HTTP client, console,
      browser, clock, confirmation prompt) is recorded, in order, in a trace
      of [event]s.  [debug(...)] calls are not recorded. *)

From Stdlib Require Import String Ascii List ZArith Bool Arith Lia.
Import ListNotations.
Open Scope string_scope.

(* ------------------------------------------------------------------ *)
(** ** Python values, exceptions, messages *)

Module Py.

#[warnings="-register-all"]
Inductive value : Type :=
| VNone
| VBool (b : bool)
| VInt (z : Z)
| VStr (s : string)
| VList (l : list value)
| VDict (d : list (string * value)).

(** [bool(v)]. *)
Definition truthy (v : value) : bool :=
  match v with
  | VNone => false
  | VBool b => b
  | VInt z => negb (z =? 0)%Z
  | VStr s => negb (s =? "")
  | VList l => match l with [] => false | _ => true end
  | VDict d => match d with [] => false | _ => true end
  end.

(** [a or b]. *)
Definition or_ (a b : value) : value := if truthy a then a else b.

(** [bool(s)] for an optional command-line string ([None] or a [str]). *)
Definition truthy_opt (o : option string) : bool :=
  match o with
  | None => false
  | Some s => negb (s =? "")
  end.

Inductive exn : Type :=
| Exit (code : nat)                        (* typer.Exit(code) *)
| KeyError (key : string)                  (* d[key], key absent *)
| AttributeError (obj : value) (attr : string)
| TypeError (obj : value) (what : string)
| HTTPError (msg : string)                 (* httpx.HTTPError and subclasses *)
| JSONDecodeError                          (* response.json() on a non-JSON body *)
| ValueError (msg : string)
| OtherException (msg : string).           (* any other Exception *)

Definition is_HTTPError (e : exn) : bool :=
  match e with HTTPError _ => true | _ => false end.

(** Lookup in a dict given as an association list. *)
Fixpoint assoc (k : string) (d : list (string * value)) : option value :=
  match d with
  | [] => None
  | (k', v) :: d' => if k' =? k then Some v else assoc k d'
  end.

(** [o.get(k)]: [None] when the key is absent; an [AttributeError] when [o]
    is not a dict. *)
Definition get (o : value) (k : string) : exn + value :=
  match o with
  | VDict d => inr (match assoc k d with Some v => v | None => VNone end)
  | _ => inl (AttributeError o "get")
  end.

(** [o.get(k, dflt)]. *)
Definition get_default (o : value) (k : string) (dflt : value) : exn + value :=
  match o with
  | VDict d => inr (match assoc k d with Some v => v | None => dflt end)
  | _ => inl (AttributeError o "get")
  end.

(** [o[k]] with a string key. *)
Definition subscript (o : value) (k : string) : exn + value :=
  match o with
  | VDict d => match assoc k d with
               | Some v => inr v
               | None => inl (KeyError k)
               end
  | _ => inl (TypeError o "subscript")
  end.

(** [v == s] for a [str] [s]. *)
Definition eq_str (v : value) (s : string) : bool :=
  match v with
  | VStr s' => s' =? s
  | _ => false
  end.

(** One piece of an f-string. *)
Inductive frag : Type :=
| Txt (s : string)
| Val (v : value)
| Exc (e : exn).

Definition message := list frag.

(** [s.lower()] on ASCII letters; the other bytes are kept.  The commands
    only compare the result with an ASCII word, and no character outside
    ASCII has a letter of [google] as its lower case. *)
Definition lower_ascii (c : ascii) : ascii :=
  let n := nat_of_ascii c in
  if ((65 <=? n) && (n <=? 90))%nat then ascii_of_nat (n + 32) else c.

Fixpoint lower (s : string) : string :=
  match s with
  | EmptyString => EmptyString
  | String c s' => String (lower_ascii c) (lower s')
  end.

(** [s.startswith(p)]. *)
Definition startswith (s p : string) : bool := String.prefix p s.

(** The newline character of a Python string literal. *)
Definition nl : string := String (ascii_of_nat 10) EmptyString.

(** [hash(v)] succeeds: lists and dicts are unhashable. *)
Definition hashable (v : value) : bool :=
  match v with
  | VList _ | VDict _ => false
  | _ => true
  end.

(** [a == b] on JSON values: numbers and booleans compare by numeric value,
    lists element by element, dicts key by key whatever the order. *)
Fixpoint py_eq (a b : value) {struct a} : bool :=
  match a, b with
  | VNone, VNone => true
  | VBool x, VBool y => Bool.eqb x y
  | VBool x, VInt y => (Z.b2z x =? y)%Z
  | VInt x, VBool y => (x =? Z.b2z y)%Z
  | VInt x, VInt y => (x =? y)%Z
  | VStr x, VStr y => (x =? y)
  | VList l1, VList l2 =>
      (fix go (l1 l2 : list value) {struct l1} : bool :=
         match l1, l2 with
         | [], [] => true
         | x :: l1', y :: l2' => py_eq x y && go l1' l2'
         | _, _ => false
         end) l1 l2
  | VDict d1, VDict d2 =>
      (length d1 =? length d2)%nat &&
      forallb (fun kv => match assoc (fst kv) d2 with
                         | Some v' => py_eq (snd kv) v'
                         | None => false
                         end) d1
  | _, _ => false
  end.

(** [v in ids] for a set [ids] of hashable values. *)
Definition mem (v : value) (ids : list value) : bool :=
  existsb (py_eq v) ids.

(** The elements a [for] loop (or a comprehension) visits. *)
Definition iterate (v : value) : exn + list value :=
  match v with
  | VList l => inr l
  | VDict d => inr (map (fun kv => VStr (fst kv)) d)
  | VStr s => inr (map (fun c => VStr (String c EmptyString)) (list_ascii_of_string s))
  | _ => inl (TypeError v "iterate")
  end.

End Py.


(* ------------------------------------------------------------------ *)
(** ** Commands as state-and-exception computations *)

Module Cmd.

(** A command runs in a world [W] (collaborator state, trace, local store)
    and either returns or raises. *)
Definition M (W A : Type) : Type := W -> (Py.exn + A) * W.

Section Ops.
Context {W : Type}.

Definition ret {A} (a : A) : M W A := fun w => (inr a, w).

Definition bind {A B} (m : M W A) (k : A -> M W B) : M W B :=
  fun w => match m w with
           | (inl e, w') => (inl e, w')
           | (inr a, w') => k a w'
           end.

Definition raise {A} (e : Py.exn) : M W A := fun w => (inl e, w).

(** [try: m except ...: h e]; [h] re-raises what it does not handle. *)
Definition try_except {A} (m : M W A) (h : Py.exn -> M W A) : M W A :=
  fun w => match m w with
           | (inl e, w') => h e w'
           | (inr a, w') => (inr a, w')
           end.

(** An expression that may raise. *)
Definition eval {A} (r : Py.exn + A) : M W A := fun w => (r, w).

Definition modify (f : W -> W) : M W unit := fun w => (inr tt, f w).

Definition gets {A} (f : W -> A) : M W A := fun w => (inr (f w), w).

Definition when (b : bool) (m : M W unit) : M W unit :=
  if b then m else ret tt.
End Ops.

Declare Scope cmd_scope.
Delimit Scope cmd_scope with cmd.
Notation "x <- m ;; k" := (bind m (fun x => k))
  (at level 61, m at next level, right associativity) : cmd_scope.
Notation "m ;; k" := (bind m (fun _ => k))
  (at level 61, right associativity) : cmd_scope.

End Cmd.

(* ------------------------------------------------------------------ *)
(** ** af_cli/commands/applications.py *)

Module Applications.
Import Py Cmd.
Local Open Scope cmd_scope.

(** What the commands read of [get_config()]. *)
Record config : Type := {
  gateway_url : string;
  access_token : string;
  is_authenticated : bool
}.

(** An [httpx.Response]: [json] is what [response.json()] returns or
    raises. *)
Record response : Type := {
  status_code : nat;
  text : string;
  json : exn + value
}.

Inductive event : Type :=
| Print (m : message) (style : string)             (* console.print *)
| HttpGet (url : string) (bearer : string)         (* httpx.get *)
| HttpPost (url : string) (bearer : string) (body : value).

(** Modelled from the spec: the local state store of [af_sdk]
    ([save_application_config], [delete_application_config],
    [list_applications]), which is not part of these sources: "a keyed
    persistence layer mapping an application identifier to a credential
    record, and a list operation returning all cached records".  One record
    per identifier, kept in listing order. *)
Definition store : Type := list (string * value).

Fixpoint store_put (k : string) (v : value) (st : store) : store :=
  match st with
  | [] => [(k, v)]
  | (k', v') :: st' =>
      if k' =? k then (k, v) :: st' else (k', v') :: store_put k v st'
  end.

Definition store_remove (k : string) (st : store) : store :=
  filter (fun kv => negb (fst kv =? k)) st.

Definition store_mem (k : string) (st : store) : bool :=
  existsb (fun kv => fst kv =? k) st.

Definition list_local_apps (st : store) : list value := map snd st.

Definition store_get (k : string) (st : store) : option value :=
  option_map snd (find (fun kv => fst kv =? k) st).

(** Modelled from the spec: the file a record is kept in; the commands name
    it [~/.af/applications/<app_id>.json]. *)
Definition app_file (k : string) : string :=
  "~/.af/applications/" ++ k ++ ".json".

(** A Python object: a value with an identity.  [list.remove] and the
    iteration over [local_apps[:]] see the same objects. *)
Definition obj : Type := nat * value.

Fixpoint number (n : nat) (l : list value) : list obj :=
  match l with
  | [] => []
  | v :: l' => (n, v) :: number (S n) l'
  end.

Record world : Type := {
  trace : list event;
  files : store;
  local_apps : list obj      (* the list [local_apps] of [list_applications] *)
}.

Definition emit (e : event) : M world unit :=
  modify (fun w => {| trace := (trace w ++ [e])%list;
                      files := files w;
                      local_apps := local_apps w |}).

Definition console_print (m : message) (style : string) : M world unit :=
  emit (Print m style).

(** Modelled from the spec: [save_application_config(app_id, app_config)]
    writes the record under its identifier and returns the file.  The
    identifier is a string; another value is outside the store's contract
    and is refused with a [TypeError]. *)
Definition save_application_config (app_id cfg : value) : M world string :=
  match app_id with
  | VStr k =>
      modify (fun w => {| trace := trace w;
                          files := store_put k cfg (files w);
                          local_apps := local_apps w |}) ;;
      ret (app_file k)
  | _ => raise (TypeError app_id "app_id")
  end.

(** Modelled from the spec: [delete_application_config(app_id)] removes the
    record and tells whether there was one. *)
Definition delete_application_config (app_id : value) : M world bool :=
  match app_id with
  | VStr k =>
      had <- gets (fun w => store_mem k (files w)) ;;
      modify (fun w => {| trace := trace w;
                          files := store_remove k (files w);
                          local_apps := local_apps w |}) ;;
      ret had
  | _ => raise (TypeError app_id "app_id")
  end.

(** The [error_detail] of a refused request: the body's ["detail"] when the
    body is a JSON object, the body text otherwise (bare [except: pass]). *)
Definition error_detail (r : response) : value :=
  match json r with
  | inl _ => VStr (text r)
  | inr j =>
      match get_default j "detail" (VStr (text r)) with
      | inl _ => VStr (text r)
      | inr v => v
      end
  end.

Definition not_authenticated : M world unit :=
  console_print [Txt "❌ Not authenticated. Run 'afctl auth login' first."] "red" ;;
  raise (Exit 1).

(** [except httpx.HTTPError as e]: report and exit; anything else
    propagates. *)
Definition network_error (e : exn) : M world unit :=
  if is_HTTPError e then
    console_print [Txt "❌ Network error: "; Exc e] "red" ;;
    raise (Exit 1)
  else raise e.

(** [afctl applications connect APP_ID --token TOKEN]; [answer] is what the
    one [httpx.post] call returns or raises. *)
Definition connect_application (cfg : config) (app_id token : string)
    (answer : exn + response) : M world unit :=
  if negb (is_authenticated cfg) then not_authenticated
  else
    try_except
      (emit (HttpPost (gateway_url cfg ++ "/api/v1/applications/activate")
               (access_token cfg)
               (VDict [("activation_token", VStr token)])) ;;
       response <- eval answer ;;
       (if (status_code response =? 404)%nat then
          console_print [Txt "❌ Invalid or expired activation token"] "red" ;;
          console_print [Txt "   The token may have expired (valid for 1 hour) or was already used."] "yellow" ;;
          console_print [Txt "   Register again with 'afctl applications register'"] "white" ;;
          raise (Exit 1)
        else if (status_code response =? 403)%nat then
          console_print [Txt "❌ This activation token does not belong to you"] "red" ;;
          raise (Exit 1)
        else if negb (status_code response =? 201)%nat then
          console_print [Txt "❌ Failed to activate application: ";
                         Val (error_detail response)] "red" ;;
          raise (Exit 1)
        else ret tt) ;;
       data <- eval (json response) ;;
       d_app_id <- eval (subscript data "app_id") ;;
       d_secret_key <- eval (subscript data "secret_key") ;;
       d_user_id <- eval (subscript data "user_id") ;;
       d_tenant_id <- eval (subscript data "tenant_id") ;;
       d_tool_connections <- eval (subscript data "tool_connections") ;;
       d_created_at <- eval (subscript data "created_at") ;;
       let app_config :=
         VDict [("app_id", d_app_id);
                ("secret_key", d_secret_key);
                ("user_id", d_user_id);
                ("tenant_id", d_tenant_id);
                ("tool_connections", d_tool_connections);
                ("created_at", d_created_at);
                ("gateway_url", VStr (gateway_url cfg))] in
       key <- eval (subscript data "app_id") ;;
       app_file <- save_application_config key app_config ;;
       console_print [Txt (nl ++ "✅ Application activated successfully!")] "green bold" ;;
       shown_id <- eval (subscript data "app_id") ;;
       console_print [Txt (nl ++ "📋 App ID: "); Val shown_id] "cyan" ;;
       shown_key <- eval (subscript data "secret_key") ;;
       console_print [Txt "🔑 Secret Key: "; Val shown_key] "yellow" ;;
       console_print [Txt (nl ++ "💾 Credentials saved to: " ++ app_file)] "green" ;;
       console_print [Txt (nl ++ "⚠️  Save the secret key securely! It won't be shown again.")] "yellow bold" ;;
       console_print [Txt (nl ++ "🚀 Your agent can now authenticate with:")] "cyan" ;;
       console_print [Txt "   from af_sdk import get_application_client"] "white" ;;
       last_id <- eval (subscript data "app_id") ;;
       console_print [Txt "   client = await get_application_client('"; Val last_id; Txt "')"] "white")
      network_error.

(** [{app["app_id"] for app in server_apps}], as the list of its members. *)
Fixpoint app_id_set (apps : list value) : exn + list value :=
  match apps with
  | [] => inr []
  | app :: rest =>
      match subscript app "app_id" with
      | inl e => inl e
      | inr v =>
          if hashable v then
            match app_id_set rest with
            | inl e => inl e
            | inr ids => inr (v :: ids)
            end
          else inl (TypeError v "hash")
      end
  end.

(** [v not in ids]: hashing [v] comes first. *)
Definition not_in (v : value) (ids : list value) : exn + bool :=
  if hashable v then inr (negb (mem v ids)) else inl (TypeError v "hash").

(** [l.remove(x)]: drops the first element that is [x] or equals it. *)
Fixpoint list_remove (x : obj) (l : list obj) : exn + list obj :=
  match l with
  | [] => inl (ValueError "list.remove(x): x not in list")
  | y :: l' =>
      if (fst y =? fst x)%nat || py_eq (snd y) (snd x) then inr l'
      else match list_remove x l' with
           | inl e => inl e
           | inr r => inr (y :: r)
           end
  end.

(** [', '.join(orphaned)]. *)
Fixpoint join_ids (ids : list value) : exn + string :=
  match ids with
  | [] => inr ""
  | v :: rest =>
      match v, join_ids rest with
      | VStr s, inr r =>
          inr (match rest with [] => s | _ => s ++ ", " ++ r end)
      | VStr _, inl e => inl e
      | _, _ => inl (TypeError v "join")
      end
  end.

Definition set_local_apps (l : list obj) : M world unit :=
  modify (fun w => {| trace := trace w; files := files w; local_apps := l |}).

(** The loop [for local_app in local_apps[:]] of [list_applications];
    [copy] is what is left of the copy, the list itself is in the world. *)
Fixpoint remove_orphans (server_app_ids : list value) (copy : list obj)
    (orphaned : list value) : M world (list value) :=
  match copy with
  | [] => ret orphaned
  | local_app :: rest =>
      id <- eval (subscript (snd local_app) "app_id") ;;
      absent <- eval (not_in id server_app_ids) ;;
      if absent then
        id1 <- eval (subscript (snd local_app) "app_id") ;;
        let orphaned := (orphaned ++ [id1])%list in
        id2 <- eval (subscript (snd local_app) "app_id") ;;
        _ <- delete_application_config id2 ;;
        cur <- gets local_apps ;;
        cur' <- eval (list_remove local_app cur) ;;
        set_local_apps cur' ;;
        remove_orphans server_app_ids rest orphaned
      else remove_orphans server_app_ids rest orphaned
  end.

(** The two handlers of the synchronisation: a transport error is reported
    as a warning, any other exception is dropped. *)
Definition sync_failed (e : exn) : M world unit :=
  if is_HTTPError e then
    console_print [Txt "⚠️  Could not sync with server: "; Exc e] "yellow"
  else ret tt.

(** [afctl applications list]: the part before rendering.  [fetch] is what
    the [httpx.get] call returns or raises; the result is the list that is
    rendered. *)
Definition list_applications (cfg : config) (sync : bool)
    (fetch : exn + response) : M world (list value) :=
  apps <- gets (fun w => list_local_apps (files w)) ;;
  set_local_apps (number 0 apps) ;;
  when (sync && is_authenticated cfg)
    (try_except
       (emit (HttpGet (gateway_url cfg ++ "/api/v1/applications")
                (access_token cfg)) ;;
        response <- eval fetch ;;
        when (status_code response =? 200)%nat
          (data <- eval (json response) ;;
           server_apps <- eval (get_default data "applications" (VList [])) ;;
           members <- eval (iterate server_apps) ;;
           server_app_ids <- eval (app_id_set members) ;;
           copy <- gets local_apps ;;
           orphaned <- remove_orphans server_app_ids copy [] ;;
           match orphaned with
           | [] => ret tt
           | _ =>
               joined <- eval (join_ids orphaned) ;;
               console_print
                 [Txt "🧹 Cleaned up ";
                  Val (VInt (Z.of_nat (length orphaned)));
                  Txt (" orphaned local file(s): " ++ joined)] "yellow"
           end))
       sync_failed) ;;
  gets (fun w => map snd (local_apps w)).

(** What a command run from a store leaves behind: its console and network
    trace, what it returned or raised, and the store. *)
Record outcome (A : Type) : Type := {
  printed : list event;
  ended : exn + A;
  files_after : store
}.
Arguments printed {A} _.
Arguments ended {A} _.
Arguments files_after {A} _.

Definition run {A} (m : M world A) (st : store) : outcome A :=
  let '(r, w) := m {| trace := []; files := st; local_apps := [] |} in
  {| printed := trace w; ended := r; files_after := files w |}.

(** The request of [connect_application]. *)
Definition activate_request (cfg : config) (token : string) : event :=
  HttpPost (gateway_url cfg ++ "/api/v1/applications/activate")
    (access_token cfg) (VDict [("activation_token", VStr token)]).

(** The record [connect_application] builds from the body of a 201 answer. *)
Definition application_record (cfg : config)
    (app_id secret_key user_id tenant_id tool_connections created_at : value)
    : value :=
  VDict [("app_id", app_id);
         ("secret_key", secret_key);
         ("user_id", user_id);
         ("tenant_id", tenant_id);
         ("tool_connections", tool_connections);
         ("created_at", created_at);
         ("gateway_url", VStr (gateway_url cfg))].

(** The store's invariant: every record carries the identifier it is kept
    under. *)
Definition well_keyed (st : store) : Prop :=
  Forall (fun kv => subscript (snd kv) "app_id" = inr (VStr (fst kv))) st.

(** The identifier of a record is in the server's set. *)
Definition on_server (server_app_ids : list value) (kv : string * value) : bool :=
  mem (VStr (fst kv)) server_app_ids.

Definition is_print (e : event) : bool :=
  match e with Print _ _ => true | _ => false end.

(** Sample data. *)
Definition demo_config : config :=
  {| gateway_url := "https://gateway.example";
     access_token := "session-token";
     is_authenticated := true |}.

Definition refused (code : nat) : response :=
  {| status_code := code; text := "refused"; json := inl JSONDecodeError |}.

Definition activated : response :=
  {| status_code := 201;
     text := "";
     json := inr (VDict [("app_id", VStr "my-slack-bot");
                         ("secret_key", VStr "sk_live_1");
                         ("user_id", VStr "u1");
                         ("tenant_id", VStr "t1");
                         ("tool_connections",
                          VDict [("slack-work", VList [VStr "slack:read"])]);
                         ("created_at", VStr "2025-01-01T00:00:00")]) |}.

Definition app_record (k : string) : string * value :=
  (k, VDict [("app_id", VStr k); ("secret_key", VStr ("sk_" ++ k))]).

Definition local_ABC : store := [app_record "A"; app_record "B"; app_record "C"].

Definition server_AC : response :=
  {| status_code := 200;
     text := "";
     json := inr (VDict [("applications",
                          VList [VDict [("app_id", VStr "A")];
                                 VDict [("app_id", VStr "C")]])]) |}.

(** A fetch that did not bring the server's list: the call raised, or the
    answer is not a 200. *)
Definition fetch_failed (fetch : exn + response) : Prop :=
  match fetch with
  | inl _ => True
  | inr r => status_code r <> 200
  end.

(** The records of a store that the loop of [list_applications] finds
    orphaned, and the identifiers it deletes. *)
Definition orphan (server_app_ids : list value) (o : obj) : bool :=
  match subscript (snd o) "app_id" with
  | inr (VStr k) => negb (mem (VStr k) server_app_ids)
  | _ => false
  end.

Fixpoint orphan_keys (server_app_ids : list value) (copy : list obj) : list string :=
  match copy with
  | [] => []
  | o :: rest =>
      match subscript (snd o) "app_id" with
      | inr (VStr k) =>
          if mem (VStr k) server_app_ids then orphan_keys server_app_ids rest
          else k :: orphan_keys server_app_ids rest
      | _ => orphan_keys server_app_ids rest
      end
  end.

End Applications.

(* ------------------------------------------------------------------ *)
(** ** af_cli/commands/tools.py *)

Module Tools.
Import Py Cmd.
Local Open Scope cmd_scope.

Inductive level : Type := Error | Warning | Success | Info.

Inductive event : Type :=
| Out (l : level) (m : message)          (* error, warning, success, info *)
| Get (path : string)                    (* client.get *)
| Post (path : string) (data : value)    (* client.post *)
| Delete (path : string)                 (* client.delete *)
| Sleep (secs : nat)                     (* time.sleep *)
| BrowserOpen (url : value)              (* webbrowser.open *)
| Confirm (prompt : message).            (* typer.confirm *)

(** The collaborators of the commands, over a state [S] of the outside
    world (gateway, operator, clock): each call may change it, and the
    calls of the gateway client, the prompt and the browser may raise. *)
Class Collaborators (S : Type) : Type := {
  get_client : S -> (exn + unit) * S;
  client_get : string -> S -> (exn + value) * S;
  client_post : string -> value -> S -> (exn + value) * S;
  client_delete : string -> S -> (exn + value) * S;
  typer_confirm : message -> S -> (exn + bool) * S;
  webbrowser_open : value -> S -> (exn + unit) * S;
  time_sleep : nat -> S -> S;
  config_gateway_url : S -> string
}.

Definition is_request (e : event) : bool :=
  match e with
  | Get _ | Post _ _ | Delete _ => true
  | _ => false
  end.

(** The network calls of a trace, in order. *)
Definition requests (tr : list event) : list event := filter is_request tr.

Definition is_error (e : event) : bool :=
  match e with
  | Out Error _ => true
  | _ => false
  end.

(** The lines written by [error(...)], in order. *)
Definition errors (tr : list event) : list event := filter is_error tr.

(** The error kinds of the design document, as the lines the commands
    write with [error(...)]. *)
Definition AmbiguousTool : event :=
  Out Error [Txt "❌ Invalid tool name: 'google'"].
Definition UnsupportedMethod : event :=
  Out Error [Txt "oauth3 method is only available for Google Workspace tools, Slack, and Notion"].
Definition MissingCredentialInput : event :=
  Out Error [Txt "api_credentials method requires either:"].
Definition DeprecatedMethod : event :=
  Out Error [Txt "The 'oauth' method is deprecated. Please use 'api_credentials' instead."].
Definition AuthorizationTimeout : event :=
  Out Error [Txt "Timeout: Authorization not completed within 2 minutes"].
Definition AlreadyDisconnected (connection_id : string) : event :=
  Out Error [Txt ("Connection '" ++ connection_id ++ "' is already disconnected")].
(** The line of the handler [except Exception as e] of a command. *)
Definition FailedTo (what : string) (e : exn) : event :=
  Out Error [Txt ("Failed to " ++ what ++ ": "); Exc e].

Section Commands.
Context {S : Type} `{Collaborators S}.

Definition world : Type := S * list event.

Definition emit (e : event) : M world unit :=
  modify (fun w => (fst w, (snd w ++ [e])%list)).

(** A collaborator call: the event is recorded, then the collaborator
    answers. *)
Definition call {A} (e : event) (f : S -> (exn + A) * S) : M world A :=
  fun w => let '(r, s') := f (fst w) in (r, (s', (snd w ++ [e])%list)).

Definition error (m : message) : M world unit := emit (Out Error m).
Definition warning (m : message) : M world unit := emit (Out Warning m).
Definition success (m : message) : M world unit := emit (Out Success m).
Definition info (m : message) : M world unit := emit (Out Info m).

Definition with_client : M world unit :=
  fun w => let '(r, s') := get_client (fst w) in (r, (s', snd w)).
Definition get (path : string) : M world value :=
  call (Get path) (client_get path).
Definition post (path : string) (data : value) : M world value :=
  call (Post path data) (client_post path data).
Definition delete (path : string) : M world value :=
  call (Delete path) (client_delete path).
Definition confirm (prompt : message) : M world bool :=
  call (Confirm prompt) (typer_confirm prompt).
Definition browser_open (url : value) : M world unit :=
  call (BrowserOpen url) (webbrowser_open url).
Definition sleep (secs : nat) : M world unit :=
  call (Sleep secs) (fun s => (inr tt, time_sleep secs s)).
Definition gateway_url : M world string :=
  gets (fun w => config_gateway_url (fst w)).

(** [tool.startswith("google_") or tool == "gmail"]. *)
Definition is_google (tool : string) : bool :=
  startswith tool "google_" || (tool =? "gmail").

(** The tools [oauth3] is available for. *)
Definition oauth3_allowed (tool : string) : bool :=
  startswith tool "google_" || (tool =? "gmail") || (tool =? "slack")
  || (tool =? "notion").

(** [display_name or connection_id]. *)
Definition display_or (display_name : option string) (connection_id : string)
  : string :=
  match display_name with
  | Some d => if truthy_opt (Some d) then d else connection_id
  | None => connection_id
  end.

Definition opt_str (o : option string) : string :=
  match o with Some s => s | None => "" end.

(** The rejection of the bare family name. *)
Definition invalid_google (connection_id method : string) : M world unit :=
  error [Txt "❌ Invalid tool name: 'google'"] ;;
  info [Txt ""] ;;
  info [Txt "Please specify the exact Google Workspace tool:"] ;;
  info [Txt "  • google_drive    - Google Drive"] ;;
  info [Txt "  • google_docs     - Google Docs"] ;;
  info [Txt "  • google_sheets   - Google Sheets"] ;;
  info [Txt "  • google_slides   - Google Slides"] ;;
  info [Txt "  • gmail           - Gmail"] ;;
  info [Txt "  • google_calendar - Google Calendar"] ;;
  info [Txt "  • google_meet     - Google Meet"] ;;
  info [Txt "  • google_forms    - Google Forms"] ;;
  info [Txt "  • google_classroom - Google Classroom"] ;;
  info [Txt "  • google_people   - Google People (Contacts)"] ;;
  info [Txt "  • google_chat     - Google Chat"] ;;
  info [Txt "  • google_tasks    - Google Tasks"] ;;
  info [Txt ""] ;;
  info [Txt "Example:"] ;;
  info [Txt ("  afctl tools add google_drive --connection-id " ++ connection_id
             ++ " --method " ++ method)] ;;
  raise (Exit 1).

Definition known_method (method : string) : bool :=
  (method =? "api_credentials") || (method =? "oauth3") || (method =? "oauth").

(** The checks of [add] that come before the first request. *)
Definition add_validate (tool connection_id method : string)
    (token client_id client_secret : option string) : M world unit :=
  when (lower tool =? "google") (invalid_google connection_id method) ;;
  when (negb (known_method method))
    (error [Txt "Method must be 'api_credentials', 'oauth3', or 'oauth'"] ;;
     raise (Exit 1)) ;;
  when (method =? "oauth3")
    (when (negb (oauth3_allowed tool))
       (error [Txt "oauth3 method is only available for Google Workspace tools, Slack, and Notion"] ;;
        info [Txt "For other tools, use 'api_credentials' method"] ;;
        raise (Exit 1))) ;;
  when (method =? "api_credentials")
    (let has_token := truthy_opt token in
     let has_oauth_creds := truthy_opt client_id && truthy_opt client_secret in
     when (negb has_token && negb has_oauth_creds)
       (error [Txt "api_credentials method requires either:"] ;;
        info [Txt "  • --token (for simple token auth like Notion, Slack bot)"] ;;
        info [Txt "  • --client-id and --client-secret (for OAuth app auth like Google)"] ;;
        info [Txt ""] ;;
        info [Txt "Examples:"] ;;
        info [Txt ("  afctl tools add " ++ tool ++ " --connection-id " ++ connection_id
                   ++ " --method api_credentials --token YOUR_TOKEN")] ;;
        info [Txt ("  afctl tools add " ++ tool ++ " --connection-id " ++ connection_id
                   ++ " --method api_credentials --client-id ID --client-secret SECRET")] ;;
        raise (Exit 1))).

(** The endpoint [add] stores an API token at. *)
Definition add_token_endpoint (tool connection_id : string) : string :=
  if tool =? "notion" then
    "/api/v1/tools/" ++ tool ++ "/config?connection_id=" ++ connection_id
  else
    "/api/v1/tools/" ++ tool ++ "/connection?connection_id=" ++ connection_id.

(** The endpoint [add] stores the credentials of an OAuth app at. *)
Definition add_config_endpoint (tool connection_id : string) : string :=
  let api_tool_name := if is_google tool then "google" else tool in
  let tool_type_param :=
    if api_tool_name =? "google" then "&tool_type=" ++ tool else "" in
  "/api/v1/tools/" ++ api_tool_name ++ "/config?connection_id="
    ++ connection_id ++ tool_type_param.

(** Step 2 of [add] for [api_credentials]: where and what is stored. *)
Definition add_store_credentials (tool connection_id : string)
    (token client_id client_secret redirect_uri : option string)
    : M world unit :=
  let api_tool_name := if is_google tool then "google" else tool in
  if truthy_opt token then
    info [Txt "Storing API token..."] ;;
    let cred_payload :=
      if tool =? "notion" then
        VDict [("integration_token", VStr (opt_str token))]
      else
        VDict [("api_token", VStr (opt_str token))] in
    _ <- post (add_token_endpoint tool connection_id) cred_payload ;;
    success [Txt "✅ API token stored"] ;;
    success [Txt ("✅ Connection '" ++ connection_id ++ "' is ready to use!")]
  else if truthy_opt client_id && truthy_opt client_secret then
    redirect_uri <-
      (if negb (truthy_opt redirect_uri) then
         gw <- gateway_url ;;
         let uri := gw ++ "/api/v1/tools/" ++ api_tool_name ++ "/oauth/callback" in
         info [Txt ("Using default redirect URI: " ++ uri)] ;;
         ret uri
       else ret (opt_str redirect_uri)) ;;
    info [Txt "Storing OAuth app credentials..."] ;;
    let config_payload :=
      ([("client_id", VStr (opt_str client_id));
        ("client_secret", VStr (opt_str client_secret))]
       ++ (if negb (redirect_uri =? "") then [("redirect_uri", VStr redirect_uri)]
           else []))%list in
    _ <- post (add_config_endpoint tool connection_id) (VDict config_payload) ;;
    success [Txt "✅ OAuth app credentials stored"] ;;
    info [Txt ""] ;;
    info [Txt ("Next: Run 'afctl tools connect " ++ connection_id
               ++ "' to complete OAuth setup")]
  else ret tt.

(** [except Exception as e] of a command: every exception, [typer.Exit]
    included, is reported and turned into exit code 1. *)
Definition failed_to (what : string) (e : exn) : M world unit :=
  error [Txt ("Failed to " ++ what ++ ": "); Exc e] ;;
  raise (Exit 1).

(** The body of the request that creates the connection entry. *)
Definition connection_data (tool connection_id : string)
    (display_name : option string) (method : string) : value :=
  VDict [("tool", VStr tool);
         ("connection_id", VStr connection_id);
         ("display_name", VStr (display_or display_name connection_id));
         ("method", VStr method)].

(** [afctl tools add TOOL --connection-id ... --method ...]. *)
Definition add (tool connection_id : string) (display_name : option string)
    (method : string) (token client_id client_secret redirect_uri : option string)
    : M world unit :=
  try_except
    (with_client ;;
     add_validate tool connection_id method token client_id client_secret ;;
     info [Txt ("Creating connection: " ++ connection_id)] ;;
     info [Txt ("Tool: " ++ tool)] ;;
     info [Txt ("Method: " ++ method)] ;;
     _ <- post "/api/v1/user-connections"
            (connection_data tool connection_id display_name method) ;;
     success [Txt ("✅ Connection entry created: " ++ connection_id)] ;;
     (if method =? "oauth3" then
        success [Txt "✅ Connection configured with platform OAuth"] ;;
        info [Txt ""] ;;
        info [Txt ("Next: Run 'afctl tools connect " ++ connection_id
                   ++ "' to authenticate")]
      else if method =? "api_credentials" then
        add_store_credentials tool connection_id token client_id client_secret
          redirect_uri
      else if method =? "oauth" then
        error [Txt "The 'oauth' method is deprecated. Please use 'api_credentials' instead."] ;;
        info [Txt "All credential storage now uses the 'api_credentials' method."] ;;
        raise (Exit 1)
      else ret tt) ;;
     info [Txt ""] ;;
     info [Txt "View your connections:"] ;;
     info [Txt "  • List all: afctl tools list"] ;;
     info [Txt ("  • View details: afctl tools get " ++ connection_id)])
    (failed_to "add connection").

(** The loop [for conn in connections: if conn.get("connection_id") ==
    connection_id: ...; break]: the first matching entry, if any. *)
Fixpoint find_connection (connection_id : string) (conns : list value)
  : exn + option value :=
  match conns with
  | [] => inr None
  | conn :: rest =>
      match Py.get conn "connection_id" with
      | inl e => inl e
      | inr v =>
          if eq_str v connection_id then inr (Some conn)
          else find_connection connection_id rest
      end
  end.

(** [GET /api/v1/user-connections] and the search for the connection. *)
Definition lookup_connection (connection_id : string)
  : M world (option value) :=
  connections <- get "/api/v1/user-connections" ;;
  conns <- eval (iterate connections) ;;
  eval (find_connection connection_id conns).

(** The receiver of [tool.startswith(...)] must be a [str]. *)
Definition as_str (v : value) (attr : string) : exn + string :=
  match v with
  | VStr s => inr s
  | _ => inl (AttributeError v attr)
  end.

(** The namespace [connect] initiates the flow under. *)
Definition connect_api_tool_name (tool : string) (method : value) : string :=
  if is_google tool then
    if eq_str method "oauth3" then "google_oauth" else "google"
  else if tool =? "notion" then
    if eq_str method "oauth3" then "notion_oauth" else "notion"
  else tool.

Definition connect_initiate_path (tool : string) (method : value)
    (connection_id : string) : string :=
  let api_tool_name := connect_api_tool_name tool method in
  let tool_type_param := if is_google tool then "&tool_type=" ++ tool else "" in
  let method_param := if eq_str method "oauth3" then "&method=oauth3" else "" in
  "/api/v1/tools/" ++ api_tool_name ++ "/connect/initiate?connection_id="
    ++ connection_id ++ tool_type_param ++ method_param.

(** [if conn.get(k): info(f"<label>: {conn[k]}")]. *)
Definition show_field (conn : value) (k label : string) : M world unit :=
  v <- eval (Py.get conn k) ;;
  when (truthy v)
    (v' <- eval (subscript conn k) ;;
     info [Txt (label ++ ": "); Val v']).

Definition max_attempts : nat := 120.

(** The loop [for attempt in range(max_attempts)]; [attempts] is what is
    left of the range.  [true]: the command returned from inside the
    loop; [false]: the range is exhausted. *)
Fixpoint poll (tool connection_id : string) (attempts : nat) : M world bool :=
  match attempts with
  | O => ret false
  | Datatypes.S attempts' =>
      sleep 1 ;;
      found <- lookup_connection connection_id ;;
      match found with
      | Some conn =>
          connected <- eval (Py.get conn "connected") ;;
          if truthy connected then
            info [Txt ""] ;;
            success [Txt ("✅ Successfully connected to " ++ tool ++ "!")] ;;
            info [Txt ("Connection ID: " ++ connection_id)] ;;
            show_field conn "email" "Email" ;;
            show_field conn "team_name" "Team" ;;
            show_field conn "login" "GitHub" ;;
            ret true
          else poll tool connection_id attempts'
      | None => poll tool connection_id attempts'
      end
  end.

(** The end of [connect]: the polling loop and what follows it. *)
Definition connect_await (tool connection_id : string) : M world unit :=
  returned <- poll tool connection_id max_attempts ;;
  if returned then ret tt
  else
    error [Txt ""] ;;
    error [Txt "Timeout: Authorization not completed within 2 minutes"] ;;
    info [Txt "Please try again or check your browser"] ;;
    raise (Exit 1).

(** [connect] from "Determine the API base tool name" on. *)
Definition connect_authorize (connection_id : string) (tool method : value)
  : M world unit :=
  tool <- eval (as_str tool "startswith") ;;
  info [Txt ("Initiating OAuth for " ++ tool ++ "...")] ;;
  result <- post (connect_initiate_path tool method connection_id) (VDict []) ;;
  a <- eval (Py.get result "authorization_url") ;;
  auth_url <-
    (if truthy a then ret a
     else
       b <- eval (Py.get result "auth_url") ;;
       if truthy b then ret b else eval (Py.get result "oauth_url")) ;;
  when (negb (truthy auth_url))
    (error [Txt "Failed to get authorization URL from backend"] ;;
     error [Txt "Response keys: ";
            Val (VList (match result with
                        | VDict d => map (fun kv => VStr (fst kv)) d
                        | _ => []
                        end))] ;;
     raise (Exit 1)) ;;
  info [Txt "Opening browser for authentication..."] ;;
  info [Txt ""] ;;
  info [Txt "If browser doesn't open, visit: "; Val auth_url] ;;
  browser_open auth_url ;;
  info [Txt ""] ;;
  info [Txt "Waiting for authorization..."] ;;
  info [Txt "(Complete the login in your browser)"] ;;
  connect_await tool connection_id.

(** [afctl tools connect CONNECTION_ID [--yes]]. *)
Definition connect (connection_id : string) (yes : bool) : M world unit :=
  try_except
    (with_client ;;
     found <- lookup_connection connection_id ;;
     let connection := match found with Some c => c | None => VNone end in
     when (negb (truthy connection))
       (error [Txt ("Connection '" ++ connection_id ++ "' not found")] ;;
        info [Txt "Run 'afctl tools list' to see available connections"] ;;
        raise (Exit 1)) ;;
     tool <- eval (subscript connection "tool") ;;
     method <- eval (subscript connection "method") ;;
     connected <- eval (Py.get connection "connected") ;;
     if truthy connected then
       warning [Txt ("Connection '" ++ connection_id ++ "' is already connected")] ;;
       if negb yes then
         confirmed <- confirm [Txt "Do you want to reconnect (re-authorize)?"] ;;
         if negb confirmed then ret tt
         else connect_authorize connection_id tool method
       else connect_authorize connection_id tool method
     else connect_authorize connection_id tool method)
    (failed_to "connect").

(** Where [disconnect] deletes the credentials. *)
Definition disconnect_path (tool connection_id : string) : string :=
  let api_tool_name := if is_google tool then "google" else tool in
  let tool_type_param :=
    if api_tool_name =? "google" then "&tool_type=" ++ tool else "" in
  "/api/v1/tools/" ++ api_tool_name ++ "/connection?connection_id="
    ++ connection_id ++ tool_type_param.

Definition disconnect_prompt (tool : value) (connection_id : string)
  : message :=
  [Txt "Disconnect "; Val tool; Txt (" connection '" ++ connection_id ++ "'?")].

(** [disconnect] from "Determine the API base tool name" on. *)
Definition disconnect_delete (connection_id : string) (tool : value)
  : M world unit :=
  tool <- eval (as_str tool "startswith") ;;
  _ <- delete (disconnect_path tool connection_id) ;;
  success [Txt ("✅ Disconnected: " ++ connection_id)] ;;
  info [Txt "Connection entry preserved."] ;;
  info [Txt ("Run 'afctl tools connect " ++ connection_id ++ "' to reconnect.")].

(** [afctl tools disconnect CONNECTION_ID [--force]]. *)
Definition disconnect (connection_id : string) (force : bool) : M world unit :=
  try_except
    (with_client ;;
     found <- lookup_connection connection_id ;;
     let connection := match found with Some c => c | None => VNone end in
     when (negb (truthy connection))
       (error [Txt ("Connection '" ++ connection_id ++ "' not found")] ;;
        raise (Exit 1)) ;;
     tool <- eval (subscript connection "tool") ;;
     display_name <- eval (Py.get connection "display_name") ;;
     let tool_display := or_ display_name (VStr connection_id) in
     connected <- eval (Py.get connection "connected") ;;
     when (negb (truthy connected))
       (error [Txt ("Connection '" ++ connection_id ++ "' is already disconnected")] ;;
        info [Txt ("Use 'afctl tools get " ++ connection_id ++ "' to view status")] ;;
        raise (Exit 1)) ;;
     if negb force then
       warning [Txt "This will remove OAuth tokens/credentials for '";
                Val tool_display; Txt "'"] ;;
       info [Txt "You can reconnect later with 'afctl tools connect'"] ;;
       confirmed <- confirm (disconnect_prompt tool connection_id) ;;
       if negb confirmed then info [Txt "Cancelled"]
       else disconnect_delete connection_id tool
     else disconnect_delete connection_id tool)
    (failed_to "disconnect").

(** The end of [remove]: the deletion of the entry. *)
Definition remove_delete (connection_id : string) : M world unit :=
  _ <- delete ("/api/v1/user-connections/" ++ connection_id) ;;
  success [Txt ("✅ Removed: " ++ connection_id)].

Definition remove_prompt (tool tool_display : value) : message :=
  [Txt "Remove "; Val tool; Txt " connection '"; Val tool_display; Txt "'?"].

(** [afctl tools remove CONNECTION_ID [--force]]. *)
Definition remove (connection_id : string) (force : bool) : M world unit :=
  try_except
    (with_client ;;
     found <- lookup_connection connection_id ;;
     let connection := match found with Some c => c | None => VNone end in
     when (negb (truthy connection))
       (error [Txt ("Connection '" ++ connection_id ++ "' not found")] ;;
        raise (Exit 1)) ;;
     tool <- eval (subscript connection "tool") ;;
     display_name <- eval (Py.get connection "display_name") ;;
     let tool_display := or_ display_name (VStr connection_id) in
     if negb force then
       warning [Txt "⚠️  This will permanently delete the connection and credentials"] ;;
       confirmed <- confirm (remove_prompt tool tool_display) ;;
       if negb confirmed then info [Txt "Cancelled"]
       else remove_delete connection_id
     else remove_delete connection_id)
    (failed_to "remove").

(** What a command run from a state of the outside world leaves behind:
    what it returned or raised, the state, and its trace. *)
Record outcome (A : Type) : Type := {
  ended : exn + A;
  state_after : S;
  trace : list event
}.

Definition run {A} (m : M world A) (s : S) : outcome A :=
  let '(r, (s', tr)) := m (s, []) in
  {| ended := r; state_after := s'; trace := tr |}.

(** *** What a status check sees *)

Inductive observation : Type :=
| Connected (conn : value)       (* the entry is listed with a true [connected] *)
| NotConnected (conn : value)    (* the entry is listed, [connected] is not true *)
| Absent                         (* no entry has the identifier *)
| Unanswered (e : exn).          (* the call or the search raised *)

Definition observe (connection_id : string) (answer : exn + value)
  : observation :=
  match answer with
  | inl e => Unanswered e
  | inr connections =>
      match iterate connections with
      | inl e => Unanswered e
      | inr conns =>
          match find_connection connection_id conns with
          | inl e => Unanswered e
          | inr None => Absent
          | inr (Some conn) =>
              match Py.get conn "connected" with
              | inl e => Unanswered e
              | inr c => if truthy c then Connected conn else NotConnected conn
              end
          end
      end
  end.

(** The client is obtained and the connections are listed, as at the start
    of [connect] and [disconnect]. *)
Definition listing (connection_id : string) (s : S) : observation * S :=
  match get_client s with
  | (inl e, s1) => (Unanswered e, s1)
  | (inr _, s1) =>
      let '(r, s2) := client_get "/api/v1/user-connections" s1 in
      (observe connection_id r, s2)
  end.

(** One attempt of the polling loop: a second of sleep, then the list. *)
Definition poll_once (connection_id : string) (s : S) : observation * S :=
  let '(r, s') := client_get "/api/v1/user-connections" (time_sleep 1 s) in
  (observe connection_id r, s').

Definition pending (o : observation) : bool :=
  match o with
  | NotConnected _ | Absent => true
  | _ => false
  end.

(** The first [n] attempts from [s] are answered and none sees the
    connection connected. *)
Fixpoint quiet_polls (connection_id : string) (n : nat) (s : S) : bool :=
  match n with
  | O => true
  | Datatypes.S n' =>
      pending (fst (poll_once connection_id s))
      && quiet_polls connection_id n' (snd (poll_once connection_id s))
  end.

(** The state after [n] attempts. *)
Fixpoint after_polls (connection_id : string) (n : nat) (s : S) : S :=
  match n with
  | O => s
  | Datatypes.S n' => after_polls connection_id n' (snd (poll_once connection_id s))
  end.

(** The trace of [n] attempts. *)
Fixpoint polling_trace (n : nat) : list event :=
  match n with
  | O => []
  | Datatypes.S n' => Sleep 1 :: Get "/api/v1/user-connections" :: polling_trace n'
  end.

(** What [show_field] prints. *)
Definition report_field (conn : value) (k label : string) : list event :=
  match Py.get conn k with
  | inr v => if truthy v then [Out Info [Txt (label ++ ": "); Val v]] else []
  | inl _ => []
  end.

(** What the polling loop prints when it sees the connection connected. *)
Definition connected_report (tool connection_id : string) (conn : value)
  : list event :=
  ([Out Info [Txt ""];
    Out Success [Txt ("✅ Successfully connected to " ++ tool ++ "!")];
    Out Info [Txt ("Connection ID: " ++ connection_id)]]
   ++ report_field conn "email" "Email"
   ++ report_field conn "team_name" "Team"
   ++ report_field conn "login" "GitHub")%list.

(** The operator agrees to the prompt, when there is one. *)
Definition consent (skip : bool) (prompt : message) (s : S) : option S :=
  if skip then Some s
  else match typer_confirm prompt s with
       | (inr true, s') => Some s'
       | _ => None
       end.

(** What [disconnect] writes and asks before it deletes the credentials of
    the entry [conn], unless [--force] is given. *)
Definition disconnect_confirmation (force : bool) (conn tool : value)
    (connection_id : string) : list event :=
  if force then []
  else
    let display_name :=
      match Py.get conn "display_name" with inr v => v | inl _ => VNone end in
    [Out Warning [Txt "This will remove OAuth tokens/credentials for '";
                  Val (or_ display_name (VStr connection_id)); Txt "'"];
     Out Info [Txt "You can reconnect later with 'afctl tools connect'"];
     Confirm (disconnect_prompt tool connection_id)].

(** A computation that only adds console lines, listings and sleeps to the
    trace. *)
Definition quiet {A} (m : M world A) : Prop :=
  forall (s : S) (tr : list event),
  exists ev,
    snd (snd (m (s, tr))) = (tr ++ ev)%list
    /\ forallb (fun e => match e with
                         | Out _ _ | Get _ | Sleep _ => true
                         | _ => false
                         end) ev = true.

(** What [remove] writes and asks before it deletes the entry [conn],
    unless [--force] is given. *)
Definition remove_confirmation (force : bool) (conn tool : value)
    (connection_id : string) : list event :=
  if force then []
  else
    let display_name :=
      match Py.get conn "display_name" with inr v => v | inl _ => VNone end in
    [Out Warning [Txt "⚠️  This will permanently delete the connection and credentials"];
     Confirm (remove_prompt tool (or_ display_name (VStr connection_id)))].

(** How a command under its handler [except Exception] ends, given how its
    body ended from an empty trace: an exception is reported and becomes
    exit code 1. *)
Definition handled (what : string) (r : (exn + unit) * world) : outcome unit :=
  match r with
  | (inr _, (s', tr)) => {| ended := inr tt; state_after := s'; trace := tr |}
  | (inl e, (s', tr)) =>
      {| ended := inl (Exit 1);
         state_after := s';
         trace := (tr ++ [Out Error [Txt ("Failed to " ++ what ++ ": "); Exc e]])%list |}
  end.

(** [result.get("authorization_url") or result.get("auth_url") or
    result.get("oauth_url")] for a dict [result]. *)
Definition auth_url_of (d : list (string * value)) : value :=
  let field k := match assoc k d with Some v => v | None => VNone end in
  or_ (field "authorization_url") (or_ (field "auth_url") (field "oauth_url")).

(** The trace of [connect] from the listing to the start of the polling
    loop, for a connection that is not yet connected. *)
Definition connect_preamble (tool : string) (method : value)
    (connection_id : string) (auth_url : value) : list event :=
  [Get "/api/v1/user-connections";
   Out Info [Txt ("Initiating OAuth for " ++ tool ++ "...")];
   Post (connect_initiate_path tool method connection_id) (VDict []);
   Out Info [Txt "Opening browser for authentication..."];
   Out Info [Txt ""];
   Out Info [Txt "If browser doesn't open, visit: "; Val auth_url];
   BrowserOpen auth_url;
   Out Info [Txt ""];
   Out Info [Txt "Waiting for authorization..."];
   Out Info [Txt "(Complete the login in your browser)"]].

End Commands.

Arguments ended {S A} _.
Arguments state_after {S A} _.
Arguments trace {S A} _.

(** The namespace of a tools endpoint: what stands between
    [/api/v1/tools/] and the next [/]. *)
Fixpoint upto_slash (s : string) : string :=
  match s with
  | EmptyString => EmptyString
  | String c s' => if Ascii.eqb c "/" then EmptyString else String c (upto_slash s')
  end.

Fixpoint strip_prefix (p s : string) : option string :=
  match p with
  | EmptyString => Some s
  | String c p' =>
      match s with
      | EmptyString => None
      | String c' s' => if Ascii.eqb c c' then strip_prefix p' s' else None
      end
  end.

Definition namespace (path : string) : option string :=
  option_map upto_slash (strip_prefix "/api/v1/tools/" path).

(** The kinds of events of a trace. *)
Definition is_get (e : event) : bool :=
  match e with Get _ => true | _ => false end.
Definition is_post (e : event) : bool :=
  match e with Post _ _ => true | _ => false end.
Definition is_delete (e : event) : bool :=
  match e with Delete _ => true | _ => false end.
Definition is_browser_open (e : event) : bool :=
  match e with BrowserOpen _ => true | _ => false end.
Definition is_confirm (e : event) : bool :=
  match e with Confirm _ => true | _ => false end.
Definition is_sleep (e : event) : bool :=
  match e with Sleep _ => true | _ => false end.

(** Events that neither change anything at the gateway nor involve the
    operator: console lines, listings, sleeps. *)
Definition passive (e : event) : bool :=
  match e with
  | Out _ _ | Get _ | Sleep _ => true
  | _ => false
  end.

(** What [add] sends with an API token. *)
Definition token_payload (tool token : string) : value :=
  if tool =? "notion" then VDict [("integration_token", VStr token)]
  else VDict [("api_token", VStr token)].

(** The lines [add] writes when it is given the bare family name. *)
Definition invalid_google_lines (connection_id method : string) : list event :=
  [AmbiguousTool;
   Out Info [Txt ""];
   Out Info [Txt "Please specify the exact Google Workspace tool:"];
   Out Info [Txt "  • google_drive    - Google Drive"];
   Out Info [Txt "  • google_docs     - Google Docs"];
   Out Info [Txt "  • google_sheets   - Google Sheets"];
   Out Info [Txt "  • google_slides   - Google Slides"];
   Out Info [Txt "  • gmail           - Gmail"];
   Out Info [Txt "  • google_calendar - Google Calendar"];
   Out Info [Txt "  • google_meet     - Google Meet"];
   Out Info [Txt "  • google_forms    - Google Forms"];
   Out Info [Txt "  • google_classroom - Google Classroom"];
   Out Info [Txt "  • google_people   - Google People (Contacts)"];
   Out Info [Txt "  • google_chat     - Google Chat"];
   Out Info [Txt "  • google_tasks    - Google Tasks"];
   Out Info [Txt ""];
   Out Info [Txt "Example:"];
   Out Info [Txt ("  afctl tools add google_drive --connection-id " ++ connection_id
                  ++ " --method " ++ method)]].

(** The lines [add] writes before the creation request. *)
Definition add_announcement (tool connection_id method : string) : list event :=
  [Out Info [Txt ("Creating connection: " ++ connection_id)];
   Out Info [Txt ("Tool: " ++ tool)];
   Out Info [Txt ("Method: " ++ method)]].

(** The lines [add] ends on when it succeeds. *)
Definition add_closing (connection_id : string) : list event :=
  [Out Info [Txt ""];
   Out Info [Txt "View your connections:"];
   Out Info [Txt "  • List all: afctl tools list"];
   Out Info [Txt ("  • View details: afctl tools get " ++ connection_id)]].

(** *** A gateway to run the commands against *)

(** Modelled from the spec: the remote authorization service, which is not
    part of these sources, as far as the connection lifecycle of the design
    document goes: a registration call creates an entry that is not
    connected; an entry becomes connected once the operator has completed
    the authorization in the browser; deleting the credentials of a
    connection leaves its entry, not connected. *)
Module Gateway.

Record state : Type := {
  entries : list value;                    (* the connection records *)
  clock : nat;                             (* seconds slept so far *)
  authorizes : option (string * nat);      (* the operator completes the
                                              authorization of this
                                              connection at this time *)
  agrees : bool                            (* the operator's answer to prompts *)
}.

Fixpoint set_key (k : string) (v : value) (d : list (string * value))
  : list (string * value) :=
  match d with
  | [] => [(k, v)]
  | (k', v') :: d' => if k' =? k then (k, v) :: d' else (k', v') :: set_key k v d'
  end.

Definition set_connected (b : bool) (conn : value) : value :=
  match conn with
  | VDict d => VDict (set_key "connected" (VBool b) d)
  | _ => conn
  end.

Definition has_id (id : string) (conn : value) : bool :=
  match Py.get conn "connection_id" with
  | inr v => eq_str v id
  | inl _ => false
  end.

(** The list as the gateway reports it now. *)
Definition report (g : state) : list value :=
  match authorizes g with
  | Some (id, t) =>
      if (t <=? clock g)%nat then
        map (fun c => if has_id id c then set_connected true c else c) (entries g)
      else entries g
  | None => entries g
  end.

Definition with_entries (l : list value) (g : state) : state :=
  {| entries := l; clock := clock g; authorizes := authorizes g; agrees := agrees g |}.

(** The connection a credentials endpoint is asked about. *)
Definition names (path : string) (conn : value) : bool :=
  match Py.get conn "connection_id" with
  | inr (VStr id) =>
      match index 0 ("connection_id=" ++ id ++ "&") (path ++ "&") with
      | Some _ => true
      | None => false
      end
  | _ => false
  end.

#[global] Instance collaborators : Collaborators state := {
  get_client g := (inr tt, g);
  client_get path g :=
    if path =? "/api/v1/user-connections" then (inr (VList (report g)), g)
    else (inl (OtherException "404 Not Found"), g);
  client_post path data g :=
    if path =? "/api/v1/user-connections" then
      (inr data, with_entries (entries g ++ [set_connected false data]) g)
    else
      match index 0 "/connect/initiate?" path with
      | Some _ =>
          (inr (VDict [("authorization_url",
                        VStr "https://accounts.example/authorize")]), g)
      | None => (inr (VDict [("status", VStr "stored")]), g)
      end;
  client_delete path g :=
    (inr VNone,
     {| entries := map (fun c => if names path c then set_connected false c else c)
                     (report g);
        clock := clock g;
        authorizes := None;
        agrees := agrees g |});
  typer_confirm _ g := (inr (agrees g), g);
  webbrowser_open _ g := (inr tt, g);
  time_sleep n g :=
    {| entries := entries g; clock := clock g + n;
       authorizes := authorizes g; agrees := agrees g |};
  config_gateway_url _ := "https://gateway.example"
}.

Definition connection (tool id method : string) (connected : bool) : value :=
  VDict [("tool", VStr tool); ("connection_id", VStr id);
         ("display_name", VStr id); ("method", VStr method);
         ("connected", VBool connected)].

(** No connection yet. *)
Definition empty : state :=
  {| entries := []; clock := 0; authorizes := None; agrees := true |}.

(** One Slack connection, connected. *)
Definition slack_connected : state :=
  {| entries := [connection "slack" "slack-work" "oauth3" true];
     clock := 0; authorizes := None; agrees := true |}.

(** One Google Drive connection whose authorization the operator completes
    after [t] seconds, if at all. *)
Definition drive_pending (t : option nat) : state :=
  {| entries := [connection "google_drive" "google-work" "oauth3" false];
     clock := 0;
     authorizes := option_map (fun t => ("google-work", t)) t;
     agrees := true |}.

End Gateway.

(** *** A gateway that goes down *)

(** A stand-in for the gateway that lists the same connections every time,
    answers a given number of requests, and then raises on every request. *)
Module Flaky.

Record state : Type := {
  budget : nat;              (* requests still answered *)
  listed : list value        (* the connection records *)
}.

Definition spend (g : state) : state :=
  {| budget := pred (budget g); listed := listed g |}.

Definition down : exn := HTTPError "503 Service Unavailable".

Definition answer {A} (a : A) (g : state) : (exn + A) * state :=
  if (budget g =? 0)%nat then (inl down, g) else (inr a, spend g).

#[global] Instance collaborators : Collaborators state := {
  get_client g := (inr tt, g);
  client_get _ g := answer (VList (listed g)) g;
  client_post _ _ g := answer (VDict [("status", VStr "accepted")]) g;
  client_delete _ g := answer VNone g;
  typer_confirm _ g := (inr true, g);
  webbrowser_open _ g := (inr tt, g);
  time_sleep _ g := g;
  config_gateway_url _ := "https://gateway.example"
}.

(** It answers [n] more requests and lists [l]. *)
Definition serving (n : nat) (l : list value) : state :=
  {| budget := n; listed := l |}.

End Flaky.

(** The gateway [g] with an operator who refuses every prompt. *)
Definition refusing (g : Gateway.state) : Gateway.state :=
  {| Gateway.entries := Gateway.entries g;
     Gateway.clock := Gateway.clock g;
     Gateway.authorizes := Gateway.authorizes g;
     Gateway.agrees := false |}.

End Tools.

(* ------------------------------------------------------------------ *)
(** * Properties *)

Module ApplicationsFacts.
Import Py Cmd Applications.

Ltac run_cmd :=
  unfold run, connect_application, list_applications, not_authenticated,
    network_error, sync_failed, console_print, emit, save_application_config,
    delete_application_config, set_local_apps, when,
    try_except, bind, ret, raise, eval, modify, gets; simpl.

Lemma store_get_put k v st : store_get k (store_put k v st) = Some v.
Proof.
  unfold store_get.
  induction st as [|[k' v'] st IH]; simpl.
  - rewrite String.eqb_refl. reflexivity.
  - destruct (k' =? k) eqn:E; simpl.
    + rewrite String.eqb_refl. reflexivity.
    + rewrite E. exact IH.
Qed.

Lemma map_snd_number n l : map snd (number n l) = l.
Proof.
  revert n. induction l as [|v l IH]; intros n; simpl; [reflexivity|].
  now rewrite IH.
Qed.

Lemma map_fst_number n l : map fst (number n l) = seq n (length l).
Proof.
  revert n. induction l as [|v l IH]; intros n; simpl; [reflexivity|].
  now rewrite IH.
Qed.

Lemma assoc_In k d v : assoc k d = Some v -> In (k, v) d.
Proof.
  induction d as [|[k' v'] d IH]; simpl; [discriminate|].
  destruct (k' =? k) eqn:E.
  - apply String.eqb_eq in E. intros [= ->]. subst. now left.
  - intros Hd. right. now apply IH.
Qed.

Lemma py_eq_str s v : py_eq (VStr s) v = true -> v = VStr s.
Proof.
  destruct v; simpl; try discriminate.
  intros E. apply String.eqb_eq in E. now subst.
Qed.

(** Equal records carry the same identifier. *)
Lemma py_eq_app_id a b k :
  py_eq a b = true ->
  subscript a "app_id" = inr (VStr k) ->
  subscript b "app_id" = inr (VStr k).
Proof.
  destruct a as [| | | | |d1]; simpl; try discriminate.
  destruct b as [| | | | |d2]; try discriminate.
  intros Heq Ha.
  destruct (assoc "app_id" d1) as [v|] eqn:E1; [|discriminate].
  injection Ha as ->.
  apply andb_prop in Heq as [_ Hall].
  rewrite forallb_forall in Hall.
  specialize (Hall _ (assoc_In _ _ _ E1)). simpl in Hall. simpl.
  destruct (assoc "app_id" d2) as [v'|]; [|discriminate].
  apply py_eq_str in Hall. now subst.
Qed.

Lemma list_remove_middle x kept rest :
  (forall y, In y kept ->
     ((fst y =? fst x)%nat || py_eq (snd y) (snd x)) = false) ->
  list_remove x (kept ++ x :: rest) = inr (kept ++ rest)%list.
Proof.
  induction kept as [|y kept IH]; intros Hk; simpl.
  - now rewrite Nat.eqb_refl.
  - rewrite (Hk y (or_introl eq_refl)).
    rewrite IH; [reflexivity|].
    intros z Hz. apply Hk. now right.
Qed.

Section Loop.
Variable ids : list value.

(** The loop over the copy: it returns the identifiers of the orphans of
    [copy], deletes their files, and leaves in [local_apps] the records
    kept so far followed by those of [copy] that are not orphaned. *)
Lemma remove_orphans_spec :
  forall (copy kept : list obj) (orphaned : list value) tr fs,
    Forall (fun o => exists k, subscript (snd o) "app_id" = inr (VStr k)) copy ->
    Forall (fun o => exists k, subscript (snd o) "app_id" = inr (VStr k)
                               /\ mem (VStr k) ids = true) kept ->
    NoDup (map fst (kept ++ copy)) ->
    remove_orphans ids copy orphaned
      {| trace := tr; files := fs; local_apps := (kept ++ copy)%list |}
    = (inr (orphaned ++ map VStr (orphan_keys ids copy))%list,
       {| trace := tr;
          files := fold_left (fun f k => store_remove k f)
                     (orphan_keys ids copy) fs;
          local_apps := (kept ++ filter (fun o => negb (orphan ids o)) copy)%list |}).
Proof.
  induction copy as [|o rest IH]; intros kept orphaned tr fs Hcopy Hkept Hnd.
  - simpl. unfold ret. now rewrite !app_nil_r.
  - inversion Hcopy as [|? ? [k Hk] Hrest]; subst.
    cbn [remove_orphans orphan_keys filter].
    unfold orphan at 1. rewrite Hk.
    cbv beta iota delta [bind eval not_in gets modify ret
                           delete_application_config set_local_apps].
    cbn [hashable local_apps files trace].
    destruct (mem (VStr k) ids) eqn:Hmem; cbn [negb local_apps files trace].
    + replace (kept ++ o :: rest)%list with ((kept ++ [o]) ++ rest)%list
        by now rewrite <- app_assoc.
      rewrite IH; trivial.
      * now rewrite <- app_assoc.
      * apply Forall_app. split; trivial.
        constructor; [|constructor]. now exists k.
      * now rewrite <- app_assoc.
    + rewrite list_remove_middle.
      * rewrite IH; trivial.
        -- now rewrite <- app_assoc.
        -- rewrite map_app in Hnd |- *. simpl in Hnd.
           now apply NoDup_remove_1 in Hnd.
      * intros y Hy.
        rewrite Forall_forall in Hkept. destruct (Hkept y Hy) as [ky [Hky Hin]].
        apply orb_false_iff. split.
        -- apply Nat.eqb_neq. intros E.
           rewrite map_app in Hnd. simpl in Hnd.
           apply NoDup_remove_2 in Hnd. apply Hnd.
           apply in_or_app. left. rewrite <- E. now apply in_map.
        -- destruct (py_eq (snd y) (snd o)) eqn:E; [|reflexivity].
           pose proof (py_eq_app_id _ _ _ E Hky) as Ho.
           rewrite Hk in Ho. injection Ho as ->. congruence.
Qed.
End Loop.

Lemma filter_filter {A} (f g : A -> bool) l :
  filter f (filter g l) = filter (fun x => g x && f x) l.
Proof.
  induction l as [|x l IH]; simpl; [reflexivity|].
  destruct (g x); simpl; [destruct (f x)|]; now rewrite IH.
Qed.

Lemma fold_store_remove keys st :
  fold_left (fun f k => store_remove k f) keys st
  = filter (fun kv => negb (existsb (String.eqb (fst kv)) keys)) st.
Proof.
  revert st. induction keys as [|k keys IH]; intros st; simpl.
  - symmetry. apply forallb_filter_id. now apply forallb_forall.
  - rewrite IH. unfold store_remove. rewrite filter_filter.
    apply filter_ext. intros kv. now rewrite negb_orb.
Qed.

Section Keyed.
Variable ids : list value.

Lemma orphan_keys_store st n :
  well_keyed st ->
  orphan_keys ids (number n (map snd st))
  = map fst (filter (fun kv => negb (on_server ids kv)) st).
Proof.
  intros Hwk. revert n.
  induction Hwk as [|[k v] st Hk _ IH]; intros n; simpl; [reflexivity|].
  simpl in Hk. rewrite Hk. unfold on_server at 1. simpl.
  destruct (mem (VStr k) ids); simpl; now rewrite IH.
Qed.

Lemma kept_store st n :
  well_keyed st ->
  map snd (filter (fun o => negb (orphan ids o)) (number n (map snd st)))
  = map snd (filter (on_server ids) st).
Proof.
  intros Hwk. revert n.
  induction Hwk as [|[k v] st Hk _ IH]; intros n; simpl; [reflexivity|].
  simpl in Hk. unfold orphan at 1, on_server at 1. simpl. rewrite Hk.
  rewrite negb_involutive.
  destruct (mem (VStr k) ids); simpl; now rewrite IH.
Qed.

Lemma keyed_objects st n :
  well_keyed st ->
  Forall (fun o => exists k, subscript (snd o) "app_id" = inr (VStr k))
    (number n (map snd st)).
Proof.
  intros Hwk. revert n.
  induction Hwk as [|[k v] st Hk _ IH]; intros n; simpl; constructor.
  - now exists k.
  - apply IH.
Qed.

(** Deleting the files of the orphans leaves the records the server
    knows. *)
Lemma remove_orphan_files st :
  filter (fun kv => negb (existsb (String.eqb (fst kv))
                            (map fst (filter (fun kv => negb (on_server ids kv)) st))))
    st
  = filter (on_server ids) st.
Proof.
  apply filter_ext_in. intros kv Hin.
  destruct (on_server ids kv) eqn:E.
  - apply negb_true_iff.
    destruct (existsb _ _) eqn:Hex; [|reflexivity].
    apply existsb_exists in Hex as [k' [Hk' Heq]].
    apply String.eqb_eq in Heq.
    apply in_map_iff in Hk' as [kv' [<- Hkv']].
    apply filter_In in Hkv' as [_ Hkv'].
    unfold on_server in *. rewrite <- Heq in Hkv'. now rewrite E in Hkv'.
  - apply negb_false_iff. apply existsb_exists.
    exists (fst kv). split; [|apply String.eqb_refl].
    apply in_map. apply filter_In. split; trivial. now rewrite E.
Qed.
End Keyed.

Lemma join_ids_strings ks : exists s, join_ids (map VStr ks) = inr s.
Proof.
  induction ks as [|k ks [s IH]]; simpl; [now exists ""|].
  rewrite IH. eauto.
Qed.

(** C2.  For an authenticated operator and whatever answer [r] the gateway
    gives to the activation request: on 404 the command prints "Invalid or
    expired activation token" and exits with code 1 (TokenInvalidOrExpired);
    on 403 it prints "This activation token does not belong to you" and
    exits with code 1 (TokenOwnershipMismatch); in both cases the local
    store is left as it was.  On 201 with a body carrying the six fields of
    an application (its identifier a string), the command returns, and the
    store holds under that identifier the full record, secret included. *)
Theorem C2_activation_outcomes (cfg : config) (app_id token : string)
    (st : store) (r : response) :
  is_authenticated cfg = true ->
  let o := run (connect_application cfg app_id token (inr r)) st in
  (status_code r = 404 ->
   o = {| printed :=
            [activate_request cfg token;
             Print [Txt "❌ Invalid or expired activation token"] "red";
             Print [Txt "   The token may have expired (valid for 1 hour) or was already used."] "yellow";
             Print [Txt "   Register again with 'afctl applications register'"] "white"];
          ended := inl (Exit 1);
          files_after := st |}) /\
  (status_code r = 403 ->
   o = {| printed :=
            [activate_request cfg token;
             Print [Txt "❌ This activation token does not belong to you"] "red"];
          ended := inl (Exit 1);
          files_after := st |}) /\
  (status_code r = 201 ->
   forall (data : value) (k : string)
          (secret_key user_id tenant_id tool_connections created_at : value),
     json r = inr data ->
     subscript data "app_id" = inr (VStr k) ->
     subscript data "secret_key" = inr secret_key ->
     subscript data "user_id" = inr user_id ->
     subscript data "tenant_id" = inr tenant_id ->
     subscript data "tool_connections" = inr tool_connections ->
     subscript data "created_at" = inr created_at ->
     let record := application_record cfg (VStr k) secret_key user_id tenant_id
                     tool_connections created_at in
     ended o = inr tt /\
     files_after o = store_put k record st /\
     store_get k (files_after o) = Some record /\
     subscript record "secret_key" = inr secret_key).
Proof.
  intros Hauth o. subst o. split; [|split].
  - intros Hc. run_cmd. rewrite Hauth. simpl. rewrite Hc. reflexivity.
  - intros Hc. run_cmd. rewrite Hauth. simpl. rewrite Hc. reflexivity.
  - intros Hc data k secret_key user_id tenant_id tool_connections created_at
           Hjson Hid Hsecret Huser Htenant Hconns Hcreated record.
    assert (Hfiles :
              files_after (run (connect_application cfg app_id token (inr r)) st)
              = store_put k record st).
    { run_cmd. rewrite Hauth. simpl. rewrite Hc. simpl.
      rewrite Hjson, Hid, Hsecret, Huser, Htenant, Hconns, Hcreated.
      reflexivity. }
    split; [|split; [exact Hfiles|split]].
    + run_cmd. rewrite Hauth. simpl. rewrite Hc. simpl.
      rewrite Hjson, Hid, Hsecret, Huser, Htenant, Hconns, Hcreated.
      reflexivity.
    + rewrite Hfiles. apply store_get_put.
    + reflexivity.
Qed.

Lemma C2_activation_outcomes_witness :
  ended (run (connect_application demo_config "my-slack-bot" "tok"
                (inr (refused 404))) []) = inl (Exit 1) /\
  files_after (run (connect_application demo_config "my-slack-bot" "tok"
                      (inr (refused 403))) []) = [] /\
  store_get "my-slack-bot"
    (files_after (run (connect_application demo_config "my-slack-bot" "tok"
                         (inr activated)) []))
  = Some (application_record demo_config (VStr "my-slack-bot")
            (VStr "sk_live_1") (VStr "u1") (VStr "t1")
            (VDict [("slack-work", VList [VStr "slack:read"])])
            (VStr "2025-01-01T00:00:00")).
Proof.
  split; [|split].
  - destruct (C2_activation_outcomes demo_config "my-slack-bot" "tok" []
                (refused 404) eq_refl) as [H404 _].
    rewrite (H404 eq_refl). reflexivity.
  - destruct (C2_activation_outcomes demo_config "my-slack-bot" "tok" []
                (refused 403) eq_refl) as [_ [H403 _]].
    rewrite (H403 eq_refl). reflexivity.
  - destruct (C2_activation_outcomes demo_config "my-slack-bot" "tok" []
                activated eq_refl) as [_ [_ H201]].
    apply (H201 eq_refl _ _ _ _ _ _ _ eq_refl eq_refl eq_refl eq_refl eq_refl
             eq_refl eq_refl).
Defined.

(** C6.  When the operator is authenticated, the store is well keyed and the
    gateway answers 200 with a list of applications whose identifiers make
    the set [ids], [list_applications] deletes exactly the local records
    whose identifier is not in [ids], shows the remaining ones, and adds no
    record: what is left is the sub-list of the store that the server
    knows. *)
Theorem C6_reconciliation_removes_orphans (cfg : config) (st : store)
    (r : response) (data server_apps : value) (members ids : list value) :
  is_authenticated cfg = true ->
  well_keyed st ->
  status_code r = 200 ->
  json r = inr data ->
  get_default data "applications" (VList []) = inr server_apps ->
  iterate server_apps = inr members ->
  app_id_set members = inr ids ->
  let o := run (list_applications cfg true (inr r)) st in
  files_after o = filter (on_server ids) st /\
  ended o = inr (list_local_apps (filter (on_server ids) st)) /\
  (forall kv, In kv st -> on_server ids kv = false -> ~ In kv (files_after o)) /\
  (forall kv, In kv (files_after o) -> In kv st).
Proof.
  intros Hauth Hwk Hcode Hjson Happs Hiter Hids o.
  assert (Hrun : exists p,
             o = {| printed := p;
                    ended := inr (list_local_apps (filter (on_server ids) st));
                    files_after := filter (on_server ids) st |}).
  { subst o. run_cmd. rewrite Hauth. simpl. rewrite Hcode. simpl.
    rewrite Hjson, Happs, Hiter, Hids.
    pose proof (remove_orphans_spec ids (number 0 (list_local_apps st)) [] []
                  [HttpGet (gateway_url cfg ++ "/api/v1/applications")
                     (access_token cfg)] st
                  (keyed_objects st 0 Hwk) (Forall_nil _)) as L.
    simpl in L. rewrite map_fst_number in L.
    specialize (L (seq_NoDup _ _)).
    rewrite L. clear L. cbv beta iota.
    unfold list_local_apps.
    rewrite (orphan_keys_store ids st 0 Hwk), fold_store_remove,
      remove_orphan_files.
    destruct (join_ids_strings
                (map fst (filter (fun kv => negb (on_server ids kv)) st)))
      as [s Hs].
    destruct (map VStr _) as [|v vs] eqn:E.
    - cbn [trace files local_apps]. rewrite (kept_store ids st 0 Hwk). eauto.
    - rewrite Hs. cbn [trace files local_apps].
      rewrite (kept_store ids st 0 Hwk). eauto. }
  destruct Hrun as [p Hrun].
  assert (Hfiles : files_after o = filter (on_server ids) st)
    by now rewrite Hrun.
  assert (Hended : ended o = inr (list_local_apps (filter (on_server ids) st)))
    by now rewrite Hrun.
  clearbody o. clear Hrun.
  repeat split; trivial.
  - intros kv _ Hoff Hin. rewrite Hfiles in Hin.
    apply filter_In in Hin as [_ Hon]. congruence.
  - intros kv Hin. rewrite Hfiles in Hin. now apply filter_In in Hin.
Qed.

Lemma C6_reconciliation_removes_orphans_witness :
  let o := run (list_applications demo_config true (inr server_AC)) local_ABC in
  files_after o = [app_record "A"; app_record "C"] /\
  ended o = inr [snd (app_record "A"); snd (app_record "C")] /\
  ~ In (app_record "B") (files_after o).
Proof.
  assert (Hwk : well_keyed local_ABC) by (repeat constructor).
  pose proof (C6_reconciliation_removes_orphans demo_config local_ABC server_AC
                (VDict [("applications",
                         VList [VDict [("app_id", VStr "A")];
                                VDict [("app_id", VStr "C")]])])
                (VList [VDict [("app_id", VStr "A")];
                        VDict [("app_id", VStr "C")]])
                [VDict [("app_id", VStr "A")]; VDict [("app_id", VStr "C")]]
                [VStr "A"; VStr "C"]
                eq_refl Hwk eq_refl eq_refl eq_refl eq_refl eq_refl)
    as [Hfiles [Hended [Hgone _]]].
  split; [exact Hfiles|]. split; [exact Hended|].
  apply Hgone; [right; left; reflexivity | reflexivity].
Defined.

(** C5, as the code has it.  When the fetch of the server's list fails (the
    call raises, or the answer is not a 200), [list_applications] deletes
    nothing and shows the whole local cache.  A warning is printed when the
    call raised a transport error ([httpx.HTTPError]); after another
    exception or a refusing answer nothing is printed. *)
Theorem C5_failed_fetch_keeps_cache (cfg : config) (sync : bool) (st : store)
    (fetch : exn + response) :
  fetch_failed fetch ->
  let o := run (list_applications cfg sync fetch) st in
  files_after o = st /\
  ended o = inr (list_local_apps st) /\
  (sync = true -> is_authenticated cfg = true ->
   forall msg, fetch = inl (HTTPError msg) ->
     printed o =
     [HttpGet (gateway_url cfg ++ "/api/v1/applications") (access_token cfg);
      Print [Txt "⚠️  Could not sync with server: "; Exc (HTTPError msg)]
        "yellow"]) /\
  ((forall msg, fetch <> inl (HTTPError msg)) ->
   filter is_print (printed o) = []).
Proof.
  intros Hfail o. subst o.
  destruct sync, (is_authenticated cfg) eqn:Hauth;
    try (run_cmd; rewrite ?Hauth; simpl; rewrite map_snd_number;
         repeat split; trivial; discriminate).
  destruct fetch as [e|r]; simpl in Hfail.
  - run_cmd. rewrite Hauth. simpl.
    destruct e; simpl; rewrite map_snd_number; repeat split; trivial;
      try (intros; discriminate).
    + intros _ _ msg' [= ->]. reflexivity.
    + intros Hne. now destruct (Hne msg).
  - run_cmd. rewrite Hauth. simpl.
    apply Nat.eqb_neq in Hfail. rewrite Hfail. simpl. rewrite map_snd_number.
    repeat split; trivial. intros; discriminate.
Qed.

Lemma C5_failed_fetch_keeps_cache_witness :
  let o := run (list_applications demo_config true
                  (inl (HTTPError "connection refused"))) local_ABC in
  files_after o = local_ABC /\
  printed o =
  [HttpGet "https://gateway.example/api/v1/applications" "session-token";
   Print [Txt "⚠️  Could not sync with server: ";
          Exc (HTTPError "connection refused")] "yellow"].
Proof.
  destruct (C5_failed_fetch_keeps_cache demo_config true local_ABC
              (inl (HTTPError "connection refused")) I)
    as [Hfiles [_ [Hwarn _]]].
  split; [exact Hfiles|].
  exact (Hwarn eq_refl eq_refl _ eq_refl).
Defined.

(** C5 as the document states it fails: after a 500 answer the fetch has
    failed and the cache is kept, but no warning is printed. *)
Lemma C5_counterexample :
  let fetch := inr (refused 500) in
  let o := run (list_applications demo_config true fetch) local_ABC in
  fetch_failed fetch /\
  files_after o = local_ABC /\
  printed o =
  [HttpGet "https://gateway.example/api/v1/applications" "session-token"] /\
  ~ (exists m style, In (Print m style) (printed o)).
Proof.
  simpl. repeat split; try discriminate.
  intros [m [style [H|[]]]]. discriminate.
Qed.

End ApplicationsFacts.


Module ToolsFacts.
Import Py Cmd Tools.

Ltac cmd_unfold :=
  cbv beta iota delta
    [bind ret raise eval gets modify when try_except
     call emit sleep get post delete confirm browser_open with_client
     gateway_url info error success warning lookup_connection failed_to].

Section Polling.
Context {S : Type} `{Collaborators S}.

Lemma show_field_dict d k label (s : S) tr :
  show_field (VDict d) k label (s, tr)
  = (inr tt, (s, (tr ++ report_field (VDict d) k label)%list)).
Proof.
  unfold show_field, report_field. cmd_unfold. simpl.
  destruct (assoc k d) as [v|] eqn:E; simpl.
  - destruct (truthy v); simpl; [reflexivity | now rewrite app_nil_r].
  - now rewrite app_nil_r.
Qed.

Lemma after_polls_S connection_id n (s : S) :
  after_polls connection_id (Datatypes.S n) s
  = snd (poll_once connection_id (after_polls connection_id n s)).
Proof.
  revert s. induction n as [|n IH]; intros s; [reflexivity|].
  change (after_polls connection_id (Datatypes.S (Datatypes.S n)) s)
    with (after_polls connection_id (Datatypes.S n)
            (snd (poll_once connection_id s))).
  now rewrite IH.
Qed.

Lemma requests_polling_trace n :
  requests (polling_trace n) = repeat (Get "/api/v1/user-connections") n.
Proof. induction n as [|n IH]; simpl; [reflexivity | now rewrite IH]. Qed.

Lemma requests_connected_report tool connection_id conn :
  requests (connected_report tool connection_id conn) = [].
Proof.
  unfold connected_report, report_field, requests. rewrite !filter_app. simpl.
  repeat match goal with
         | |- context [Py.get conn ?k] => destruct (Py.get conn k) as [?|[]]
         end; simpl;
    repeat match goal with
           | |- context [if ?b then _ else _] => destruct b
           end; reflexivity.
Qed.

(** An attempt that does not see the connection connected goes on to the
    next one. *)
Lemma poll_pending tool connection_id n (s : S) tr :
  pending (fst (poll_once connection_id s)) = true ->
  poll tool connection_id (Datatypes.S n) (s, tr)
  = poll tool connection_id n
      (snd (poll_once connection_id s),
       (tr ++ [Sleep 1; Get "/api/v1/user-connections"])%list).
Proof.
  unfold poll_once, observe. cbn [poll]. cmd_unfold. cbn [fst snd].
  destruct (client_get "/api/v1/user-connections" (time_sleep 1 s)) as [r s'].
  rewrite <- app_assoc. cbn [app fst snd].
  destruct r as [e|connections]; [discriminate|].
  destruct (iterate connections) as [e|conns]; [discriminate|].
  destruct (find_connection connection_id conns) as [e|[conn|]];
    [discriminate| |reflexivity].
  destruct (Py.get conn "connected") as [e|c]; [discriminate|].
  destruct (truthy c); [discriminate|reflexivity].
Qed.

(** An attempt that sees the connection connected ends the loop. *)
Lemma poll_connected tool connection_id n (s : S) tr conn :
  fst (poll_once connection_id s) = Connected conn ->
  poll tool connection_id (Datatypes.S n) (s, tr)
  = (inr true,
     (snd (poll_once connection_id s),
      (tr ++ [Sleep 1; Get "/api/v1/user-connections"]
          ++ connected_report tool connection_id conn)%list)).
Proof.
  unfold poll_once, observe. cbn [poll]. cmd_unfold. cbn [fst snd].
  destruct (client_get "/api/v1/user-connections" (time_sleep 1 s)) as [r s'].
  cbn [fst snd].
  destruct r as [e|connections]; [discriminate|].
  destruct (iterate connections) as [e|conns]; [discriminate|].
  destruct (find_connection connection_id conns) as [e|[c|]]; try discriminate.
  destruct (Py.get c "connected") as [e|f] eqn:Hget; [discriminate|].
  destruct (truthy f); [|discriminate].
  intros [= ->].
  destruct conn; try discriminate.
  rewrite !show_field_dict. unfold connected_report.
  cbn [fst snd]. repeat rewrite <- app_assoc. reflexivity.
Qed.

Lemma poll_quiet tool connection_id n m (s : S) tr :
  quiet_polls connection_id n s = true ->
  poll tool connection_id (n + m) (s, tr)
  = poll tool connection_id m
      (after_polls connection_id n s, (tr ++ polling_trace n)%list).
Proof.
  revert s tr. induction n as [|n IH]; intros s tr Hq.
  - simpl. now rewrite app_nil_r.
  - cbn [quiet_polls] in Hq. apply andb_prop in Hq as [Hp Hq].
    change (Datatypes.S n + m) with (Datatypes.S (n + m)).
    rewrite (poll_pending _ _ _ _ _ Hp), (IH _ _ Hq).
    cbn [after_polls polling_trace]. now rewrite <- app_assoc.
Qed.

(** C3.  When each of the 120 status checks is answered and none sees the
    connection connected, the polling loop of [connect] sleeps one second
    and lists the connections exactly 120 times, then writes the timeout
    error (AuthorizationTimeout) and raises [typer.Exit(1)]. *)
Theorem C3_polling_times_out (tool connection_id : string) (s : S)
    (tr : list event) :
  quiet_polls connection_id 120 s = true ->
  connect_await tool connection_id (s, tr)
  = (inl (Exit 1),
     (after_polls connection_id 120 s,
      (tr ++ polling_trace 120
          ++ [Out Error [Txt ""];
              AuthorizationTimeout;
              Out Info [Txt "Please try again or check your browser"]])%list))
  /\ requests (polling_trace 120) = repeat (Get "/api/v1/user-connections") 120
  /\ length (requests (polling_trace 120)) = 120.
Proof.
  intros Hq. split; [|split].
  - unfold connect_await, max_attempts.
    change 120 with (120 + 0) at 1.
    cbv beta iota delta [bind]. rewrite (poll_quiet _ _ _ _ _ _ Hq).
    cbn [poll]. cmd_unfold. cbn [fst snd].
    repeat rewrite <- app_assoc. reflexivity.
  - apply requests_polling_trace.
  - rewrite requests_polling_trace. apply repeat_length.
Qed.

(** C4.  When the first [k - 1] status checks are answered without seeing
    the connection connected and check [k] (at most the 120th) sees it
    connected, the polling loop of [connect] returns after exactly [k]
    checks: it reports the success and lists the connections no more. *)
Theorem C4_polling_stops_at_first_success (tool connection_id : string)
    (k : nat) (s : S) (tr : list event) (conn : value) :
  1 <= k <= 120 ->
  quiet_polls connection_id (k - 1) s = true ->
  fst (poll_once connection_id (after_polls connection_id (k - 1) s))
  = Connected conn ->
  connect_await tool connection_id (s, tr)
  = (inr tt,
     (after_polls connection_id k s,
      (tr ++ polling_trace k
          ++ connected_report tool connection_id conn)%list))
  /\ requests (polling_trace k ++ connected_report tool connection_id conn)
     = repeat (Get "/api/v1/user-connections") k
  /\ In (Out Success [Txt ("✅ Successfully connected to " ++ tool ++ "!")])
       (connected_report tool connection_id conn).
Proof.
  intros Hk Hq Hc.
  destruct k as [|j]; [lia|].
  replace (Datatypes.S j - 1) with j in * by lia.
  split; [|split].
  - unfold connect_await, max_attempts.
    replace 120 with (j + Datatypes.S (119 - j)) by lia.
    cbv beta iota delta [bind]. rewrite (poll_quiet _ _ _ _ _ _ Hq).
    rewrite (poll_connected _ _ _ _ _ _ Hc).
    rewrite after_polls_S.
    replace (polling_trace (Datatypes.S j))
      with (polling_trace j ++ [Sleep 1; Get "/api/v1/user-connections"])%list.
    + repeat rewrite <- app_assoc. reflexivity.
    + clear. induction j as [|j IH]; [reflexivity|].
      cbn [polling_trace app]. now rewrite IH.
  - unfold requests. rewrite filter_app.
    fold (requests (polling_trace (Datatypes.S j))).
    fold (requests (connected_report tool connection_id conn)).
    now rewrite requests_polling_trace, requests_connected_report, app_nil_r.
  - unfold connected_report. simpl. right. left. reflexivity.
Qed.

End Polling.

Section Adding.
Context {S : Type} `{Collaborators S}.

(** C7, as the code has it.  With the client at hand, [add] with method
    [oauth3] on a tool that is neither the bare family name [google] (in any
    letter case) nor in the allow-list writes the error of UnsupportedMethod
    and exits with code 1 without a single request. *)
Theorem C7_oauth3_outside_allow_list (tool connection_id : string)
    (display_name token client_id client_secret redirect_uri : option string)
    (s s1 : S) :
  get_client s = (inr tt, s1) ->
  lower tool <> "google" ->
  oauth3_allowed tool = false ->
  let o := run (add tool connection_id display_name "oauth3" token client_id
                  client_secret redirect_uri) s in
  o = {| ended := inl (Exit 1);
         state_after := s1;
         trace := [UnsupportedMethod;
                   Out Info [Txt "For other tools, use 'api_credentials' method"];
                   FailedTo "add connection" (Exit 1)] |}
  /\ requests (trace o) = [].
Proof.
  intros Hclient Hname Hallow o.
  assert (Ho : o = {| ended := inl (Exit 1);
                      state_after := s1;
                      trace := [UnsupportedMethod;
                                Out Info [Txt "For other tools, use 'api_credentials' method"];
                                FailedTo "add connection" (Exit 1)] |}).
  { subst o. apply String.eqb_neq in Hname.
    unfold run, add, add_validate. cmd_unfold. cbn [fst snd].
    rewrite Hclient, Hname, Hallow. reflexivity. }
  split; [exact Ho|]. rewrite Ho. reflexivity.
Qed.

(** C8, as the code has it.  With the client at hand, [add] with method
    [api_credentials] on a tool other than the bare family name [google],
    given neither a token nor both a client id and a client secret, writes
    the error of MissingCredentialInput and exits with code 1 without a
    single request: no credentials are sent. *)
Theorem C8_api_credentials_without_input (tool connection_id : string)
    (display_name token client_id client_secret redirect_uri : option string)
    (s s1 : S) :
  get_client s = (inr tt, s1) ->
  lower tool <> "google" ->
  truthy_opt token = false ->
  truthy_opt client_id && truthy_opt client_secret = false ->
  let o := run (add tool connection_id display_name "api_credentials" token
                  client_id client_secret redirect_uri) s in
  ended o = inl (Exit 1)
  /\ state_after o = s1
  /\ errors (trace o) = [MissingCredentialInput; FailedTo "add connection" (Exit 1)]
  /\ requests (trace o) = [].
Proof.
  intros Hclient Hname Htoken Hpair o. subst o.
  apply String.eqb_neq in Hname.
  unfold run, add, add_validate. cmd_unfold. cbn [fst snd].
  rewrite Hclient, Hname, Htoken, Hpair. cbn. repeat split.
Qed.

(** C10, as the code has it.  With the client at hand and the creation
    request answered, [add] with the deprecated method [oauth] on a tool
    other than the bare family name [google] first issues the request that
    creates the connection entry, reports the entry created, and only then
    writes the deprecation error and exits with code 1.  No other request
    follows: the outside world is left as the creation request left it. *)
Theorem C10_oauth_creates_entry_before_error (tool connection_id : string)
    (display_name token client_id client_secret redirect_uri : option string)
    (s s1 s2 : S) (answer : value) :
  get_client s = (inr tt, s1) ->
  lower tool <> "google" ->
  client_post "/api/v1/user-connections"
    (connection_data tool connection_id display_name "oauth") s1
  = (inr answer, s2) ->
  run (add tool connection_id display_name "oauth" token client_id
         client_secret redirect_uri) s
  = {| ended := inl (Exit 1);
       state_after := s2;
       trace :=
         [Out Info [Txt ("Creating connection: " ++ connection_id)];
          Out Info [Txt ("Tool: " ++ tool)];
          Out Info [Txt "Method: oauth"];
          Post "/api/v1/user-connections"
            (connection_data tool connection_id display_name "oauth");
          Out Success [Txt ("✅ Connection entry created: " ++ connection_id)];
          DeprecatedMethod;
          Out Info [Txt "All credential storage now uses the 'api_credentials' method."];
          FailedTo "add connection" (Exit 1)] |}.
Proof.
  intros Hclient Hname Hpost.
  apply String.eqb_neq in Hname.
  unfold run, add, add_validate. cmd_unfold. cbn [fst snd].
  rewrite Hclient, Hname. cbn. rewrite Hpost. reflexivity.
Qed.

End Adding.

Lemma is_google_not_bare tool : is_google tool = true -> tool <> "google".
Proof. intros Hg ->. discriminate Hg. Qed.

(** C1, as the code has it.  For every tool of the Google family
    ([google_...] or [gmail]): the credentials of an OAuth app are stored,
    and the credentials of a connection are deleted, under the namespace
    [google]; the OAuth flow is initiated under [google], or under
    [google_oauth] when the method is [oauth3].  In the three cases the
    namespace is the same for all the tools of the family, and the tool
    itself goes into the [tool_type] parameter. *)
Theorem C1_google_family_namespace (tool connection_id : string)
    (method : value) :
  is_google tool = true ->
  let oauth3 := eq_str method "oauth3" in
  add_config_endpoint tool connection_id
  = "/api/v1/tools/google/config?connection_id=" ++ connection_id
      ++ "&tool_type=" ++ tool
  /\ disconnect_path tool connection_id
     = "/api/v1/tools/google/connection?connection_id=" ++ connection_id
         ++ "&tool_type=" ++ tool
  /\ connect_initiate_path tool method connection_id
     = "/api/v1/tools/" ++ (if oauth3 then "google_oauth" else "google")
         ++ "/connect/initiate?connection_id=" ++ connection_id
         ++ "&tool_type=" ++ tool
         ++ (if oauth3 then "&method=oauth3" else "")
  /\ namespace (add_config_endpoint tool connection_id) = Some "google"
  /\ namespace (disconnect_path tool connection_id) = Some "google"
  /\ namespace (connect_initiate_path tool method connection_id)
     = Some (if oauth3 then "google_oauth" else "google")
  /\ tool <> "google".
Proof.
  intros Hg oauth3. subst oauth3.
  unfold add_config_endpoint, disconnect_path, connect_initiate_path,
    connect_api_tool_name, namespace.
  rewrite Hg. cbn.
  destruct (eq_str method "oauth3"); cbn;
    repeat split; auto using is_google_not_bare.
Qed.

Section Disconnecting.
Context {S : Type} `{Collaborators S}.

(** A command under its handler [except Exception] returns or exits with
    code 1, whatever its body raises. *)
Lemma handled_returns_or_exits (m : M world unit) (what : string) (s : S) :
  ended (run (try_except m (failed_to what)) s) = inr tt
  \/ ended (run (try_except m (failed_to what)) s) = inl (Exit 1).
Proof.
  unfold run. cmd_unfold.
  destruct (m (s, [])) as [[e|[]] [s' tr]]; cbn; auto.
Qed.

(** [disconnect] returns only after it has seen the connection listed as
    connected. *)
Lemma disconnect_returns_connected (connection_id : string) (force : bool)
    (s : S) :
  ended (run (disconnect connection_id force) s) = inr tt ->
  exists conn, fst (listing connection_id s) = Connected conn.
Proof.
  unfold run, disconnect, listing, observe. cmd_unfold. cbn [fst snd].
  destruct (get_client s) as [[e|[]] s1]; cbn [fst snd]; [discriminate|].
  destruct (client_get "/api/v1/user-connections" s1) as [[e|connections] s2];
    cbn [fst snd]; [discriminate|].
  destruct (iterate connections) as [e|conns]; [discriminate|].
  destruct (find_connection connection_id conns) as [e|[conn|]];
    cbn; try discriminate.
  destruct (truthy conn); cbn; [|discriminate].
  destruct (subscript conn "tool") as [e|tool]; cbn; [discriminate|].
  destruct (Py.get conn "display_name") as [e|dn]; cbn; [discriminate|].
  destruct (Py.get conn "connected") as [e|c]; cbn; [discriminate|].
  destruct (truthy c); cbn; [eauto | discriminate].
Qed.

(** C9.  [disconnect] returns only when the listing shows the connection
    connected, and it never ends otherwise than by returning or by
    [typer.Exit(1)].  When the connection is listed as connected, the
    operator agrees (or [--force] is given) and the gateway accepts the
    deletion of the credentials, [disconnect] succeeds with that one
    deletion under the resolved namespace: the entry itself is not asked to
    be deleted.  When the gateway then lists the entry as not connected, a
    second [disconnect] writes the error of AlreadyDisconnected and exits
    with code 1 without a deletion. *)
Theorem C9_disconnect_twice (connection_id : string) (force force' : bool) :
  (forall s, ended (run (disconnect connection_id force) s) = inr tt ->
             exists conn, fst (listing connection_id s) = Connected conn)
  /\ (forall s, ended (run (disconnect connection_id force) s) = inr tt
                \/ ended (run (disconnect connection_id force) s) = inl (Exit 1))
  /\ (forall (s s2 s3 s4 s6 : S) (conn conn' tool' answer : value)
             (tool : string),
        listing connection_id s = (Connected conn, s2) ->
        subscript conn "tool" = inr (VStr tool) ->
        consent force (disconnect_prompt (VStr tool) connection_id) s2 = Some s3 ->
        client_delete (disconnect_path tool connection_id) s3 = (inr answer, s4) ->
        listing connection_id s4 = (NotConnected conn', s6) ->
        subscript conn' "tool" = inr tool' ->
        run (disconnect connection_id force) s
        = {| ended := inr tt;
             state_after := s4;
             trace :=
               (Get "/api/v1/user-connections"
                :: disconnect_confirmation force conn (VStr tool) connection_id
                ++ [Delete (disconnect_path tool connection_id);
                    Out Success [Txt ("✅ Disconnected: " ++ connection_id)];
                    Out Info [Txt "Connection entry preserved."];
                    Out Info [Txt ("Run 'afctl tools connect " ++ connection_id
                                   ++ "' to reconnect.")]])%list |}
        /\ disconnect_path tool connection_id
           <> "/api/v1/user-connections/" ++ connection_id
        /\ run (disconnect connection_id force') s4
           = {| ended := inl (Exit 1);
                state_after := s6;
                trace :=
                  [Get "/api/v1/user-connections";
                   AlreadyDisconnected connection_id;
                   Out Info [Txt ("Use 'afctl tools get " ++ connection_id
                                  ++ "' to view status")];
                   FailedTo "disconnect" (Exit 1)] |}).
Proof.
  split; [|split].
  - intros s. apply disconnect_returns_connected.
  - intros s. apply handled_returns_or_exits.
  - intros s s2 s3 s4 s6 conn conn' tool' answer tool
           Hlist Htool Hconsent Hdelete Hlist' Htool'.
    split; [|split].
    + revert Hlist. unfold run, disconnect, listing, observe.
      cmd_unfold. cbn [fst snd].
      destruct (get_client s) as [[e|[]] s1]; cbn [fst snd]; [discriminate|].
      destruct (client_get "/api/v1/user-connections" s1)
        as [[e|connections] s2']; cbn [fst snd]; [discriminate|].
      destruct (iterate connections) as [e|conns]; [discriminate|].
      destruct (find_connection connection_id conns) as [e|[c|]];
        try discriminate.
      destruct (Py.get c "connected") as [e|f] eqn:Hget; [discriminate|].
      destruct (truthy f) eqn:Hf; [|discriminate].
      intros [= -> ->].
      destruct conn as [| | | | |d]; try discriminate.
      destruct d as [|kv d]; [discriminate|].
      cbn [truthy negb]. rewrite Htool.
      destruct (Py.get (VDict (kv :: d)) "display_name") as [e|dn] eqn:Hdn;
        [discriminate|].
      cbn [negb fst snd].
      unfold disconnect_delete, as_str, disconnect_confirmation.
      cmd_unfold. cbn [fst snd].
      unfold consent in Hconsent. rewrite Hdn.
      destruct force; cbn [negb fst snd app].
      * injection Hconsent as <-. rewrite Hdelete. reflexivity.
      * destruct (typer_confirm (disconnect_prompt (VStr tool) connection_id) s2)
          as [[e|[|]] s3'] eqn:Hc; try discriminate.
        injection Hconsent as <-. cbn [negb fst snd]. rewrite Hdelete.
        reflexivity.
    + unfold disconnect_path.
      destruct (is_google tool); cbn; intros E; discriminate E.
    + revert Hlist'. unfold run, disconnect, listing, observe.
      cmd_unfold. cbn [fst snd].
      destruct (get_client s4) as [[e|[]] s5]; cbn [fst snd]; [discriminate|].
      destruct (client_get "/api/v1/user-connections" s5)
        as [[e|connections] s6']; cbn [fst snd]; [discriminate|].
      destruct (iterate connections) as [e|conns]; [discriminate|].
      destruct (find_connection connection_id conns) as [e|[c|]];
        try discriminate.
      destruct (Py.get c "connected") as [e|f] eqn:Hget; [discriminate|].
      destruct (truthy f) eqn:Hf; [discriminate|].
      intros [= -> ->].
      destruct conn' as [| | | | |d]; try discriminate.
      destruct d as [|kv d]; [discriminate|].
      cbn [truthy negb]. rewrite Htool'.
      destruct (Py.get (VDict (kv :: d)) "display_name") as [e|dn] eqn:Hdn;
        [discriminate|].
      reflexivity.
Qed.

End Disconnecting.

Lemma C1_google_family_namespace_witness :
  add_config_endpoint "gmail" "mail"
  = "/api/v1/tools/google/config?connection_id=mail&tool_type=gmail"
  /\ disconnect_path "gmail" "mail"
     = "/api/v1/tools/google/connection?connection_id=mail&tool_type=gmail"
  /\ connect_initiate_path "gmail" (VStr "oauth3") "mail"
     = "/api/v1/tools/google_oauth/connect/initiate?connection_id=mail&tool_type=gmail&method=oauth3"
  /\ requests (trace (run (add "gmail" "mail" None "api_credentials" None
                             (Some "id.apps.example") (Some "GOCSPX-1") None)
                        Gateway.empty))
     = [Post "/api/v1/user-connections"
          (connection_data "gmail" "mail" None "api_credentials");
        Post "/api/v1/tools/google/config?connection_id=mail&tool_type=gmail"
          (VDict [("client_id", VStr "id.apps.example");
                  ("client_secret", VStr "GOCSPX-1");
                  ("redirect_uri",
                   VStr "https://gateway.example/api/v1/tools/google/oauth/callback")])].
Proof.
  destruct (C1_google_family_namespace "gmail" "mail" (VStr "oauth3") eq_refl)
    as [Hadd [Hdel [Hinit _]]].
  split; [exact Hadd|]. split; [exact Hdel|]. split; [exact Hinit|].
  vm_compute. reflexivity.
Defined.

(** C1 as the document states it fails twice.  An API token for a tool of
    the Google family is stored under the tool's own identifier, without a
    [tool_type] parameter; and with the method [oauth3] the flow is
    initiated under [google_oauth], not [google]. *)
Lemma C1_counterexample :
  is_google "google_drive" = true
  /\ requests (trace (run (add "google_drive" "drive" None "api_credentials"
                             (Some "tok") None None None) Gateway.empty))
     = [Post "/api/v1/user-connections"
          (connection_data "google_drive" "drive" None "api_credentials");
        Post "/api/v1/tools/google_drive/connection?connection_id=drive"
          (VDict [("api_token", VStr "tok")])]
  /\ namespace (add_token_endpoint "google_drive" "drive") = Some "google_drive"
  /\ namespace (connect_initiate_path "google_drive" (VStr "oauth3") "drive")
     = Some "google_oauth".
Proof. vm_compute. repeat split. Qed.

Lemma C7_oauth3_outside_allow_list_witness :
  let o := run (add "github" "gh-work" None "oauth3" None None None None)
             Gateway.empty in
  o = {| ended := inl (Exit 1);
         state_after := Gateway.empty;
         trace := [UnsupportedMethod;
                   Out Info [Txt "For other tools, use 'api_credentials' method"];
                   FailedTo "add connection" (Exit 1)] |}
  /\ requests (trace o) = [].
Proof.
  apply (@C7_oauth3_outside_allow_list Gateway.state Gateway.collaborators "github" "gh-work" None None None None
           None Gateway.empty Gateway.empty eq_refl).
  - discriminate.
  - reflexivity.
Defined.

(** C7 as the document states it fails: the bare family name [google] is
    not in the allow-list, yet [add] with [oauth3] rejects it as an invalid
    tool name and never writes the error of UnsupportedMethod. *)
Lemma C7_counterexample :
  let o := run (add "google" "g" None "oauth3" None None None None)
             Gateway.empty in
  oauth3_allowed "google" = false
  /\ ended o = inl (Exit 1)
  /\ errors (trace o) = [AmbiguousTool; FailedTo "add connection" (Exit 1)]
  /\ ~ In UnsupportedMethod (trace o).
Proof.
  vm_compute. repeat split. intuition discriminate.
Qed.

Lemma C8_api_credentials_without_input_witness :
  let o := run (add "notion" "notion-work" None "api_credentials" None
                  (Some "only-an-id") None None) Gateway.empty in
  ended o = inl (Exit 1)
  /\ state_after o = Gateway.empty
  /\ errors (trace o) = [MissingCredentialInput; FailedTo "add connection" (Exit 1)]
  /\ requests (trace o) = [].
Proof.
  apply (@C8_api_credentials_without_input Gateway.state Gateway.collaborators "notion" "notion-work" None None
           (Some "only-an-id") None None Gateway.empty Gateway.empty eq_refl).
  - discriminate.
  - reflexivity.
  - reflexivity.
Defined.

(** C8 as the document states it fails: for the bare family name [google],
    [add] with [api_credentials] and no credential input ends on the
    invalid tool name and never writes the error of
    MissingCredentialInput. *)
Lemma C8_counterexample :
  let o := run (add "google" "g" None "api_credentials" None None None None)
             Gateway.empty in
  ended o = inl (Exit 1)
  /\ errors (trace o) = [AmbiguousTool; FailedTo "add connection" (Exit 1)]
  /\ ~ In MissingCredentialInput (trace o).
Proof.
  vm_compute. repeat split. intuition discriminate.
Qed.

Lemma C10_oauth_creates_entry_before_error_witness :
  let o := run (add "github" "gh-work" None "oauth" None None None None)
             Gateway.empty in
  ended o = inl (Exit 1)
  /\ requests (trace o)
     = [Post "/api/v1/user-connections"
          (connection_data "github" "gh-work" None "oauth")]
  /\ Gateway.entries (state_after o)
     = [VDict [("tool", VStr "github"); ("connection_id", VStr "gh-work");
               ("display_name", VStr "gh-work"); ("method", VStr "oauth");
               ("connected", VBool false)]].
Proof.
  intros o. subst o.
  rewrite (@C10_oauth_creates_entry_before_error Gateway.state Gateway.collaborators "github" "gh-work" None None
             None None None Gateway.empty Gateway.empty
             (Gateway.with_entries
                [Gateway.set_connected false
                   (connection_data "github" "gh-work" None "oauth")]
                Gateway.empty)
             (connection_data "github" "gh-work" None "oauth") eq_refl).
  - repeat split.
  - discriminate.
  - reflexivity.
Defined.

(** C10 as the document states it fails: for the bare family name [google],
    [add] with the method [oauth] issues no request at all, creates no
    entry and never reaches the deprecation error. *)
Lemma C10_counterexample :
  let o := run (add "google" "g" None "oauth" None None None None)
             Gateway.empty in
  ended o = inl (Exit 1)
  /\ requests (trace o) = []
  /\ state_after o = Gateway.empty
  /\ ~ In DeprecatedMethod (trace o).
Proof.
  vm_compute. repeat split. intuition discriminate.
Qed.

Lemma C9_disconnect_twice_witness :
  let first := run (disconnect "slack-work" true) Gateway.slack_connected in
  let second := run (disconnect "slack-work" true) (state_after first) in
  ended first = inr tt
  /\ requests (trace first)
     = [Get "/api/v1/user-connections";
        Delete "/api/v1/tools/slack/connection?connection_id=slack-work"]
  /\ Gateway.entries (state_after first)
     = [Gateway.connection "slack" "slack-work" "oauth3" false]
  /\ ended second = inl (Exit 1)
  /\ errors (trace second)
     = [AlreadyDisconnected "slack-work"; FailedTo "disconnect" (Exit 1)].
Proof.
  destruct (@C9_disconnect_twice Gateway.state Gateway.collaborators "slack-work" true true) as [_ [_ Htwice]].
  destruct (Htwice Gateway.slack_connected Gateway.slack_connected
              Gateway.slack_connected
              (Gateway.with_entries
                 [Gateway.connection "slack" "slack-work" "oauth3" false]
                 Gateway.slack_connected)
              (Gateway.with_entries
                 [Gateway.connection "slack" "slack-work" "oauth3" false]
                 Gateway.slack_connected)
              (Gateway.connection "slack" "slack-work" "oauth3" true)
              (Gateway.connection "slack" "slack-work" "oauth3" false)
              (VStr "slack") VNone "slack"
              eq_refl eq_refl eq_refl eq_refl eq_refl eq_refl)
    as [Hfirst [_ Hsecond]].
  intros first second. subst second first.
  rewrite Hfirst. cbn [state_after ended trace].
  rewrite Hsecond. repeat split.
Defined.

Lemma C3_polling_times_out_witness :
  connect_await "google_drive" "google-work" (Gateway.drive_pending None, [])
  = (inl (Exit 1),
     (after_polls "google-work" 120 (Gateway.drive_pending None),
      ([] ++ polling_trace 120
          ++ [Out Error [Txt ""];
              AuthorizationTimeout;
              Out Info [Txt "Please try again or check your browser"]])%list))
  /\ Gateway.clock (after_polls "google-work" 120 (Gateway.drive_pending None))
     = 120
  /\ (let o := run (connect "google-work" false) (Gateway.drive_pending None) in
      ended o = inl (Exit 1)
      /\ length (requests (trace o)) = 122
      /\ errors (trace o)
         = [Out Error [Txt ""]; AuthorizationTimeout;
            FailedTo "connect" (Exit 1)]).
Proof.
  split; [|split].
  - apply (C3_polling_times_out "google_drive" "google-work"
             (Gateway.drive_pending None) []).
    vm_compute. reflexivity.
  - vm_compute. reflexivity.
  - vm_compute. repeat split.
Defined.

Lemma C4_polling_stops_at_first_success_witness :
  connect_await "google_drive" "google-work"
    (Gateway.drive_pending (Some 6), [])
  = (inr tt,
     (after_polls "google-work" 6 (Gateway.drive_pending (Some 6)),
      ([] ++ polling_trace 6
          ++ connected_report "google_drive" "google-work"
               (Gateway.connection "google_drive" "google-work" "oauth3" true))%list))
  /\ length (requests
               (polling_trace 6
                ++ connected_report "google_drive" "google-work"
                     (Gateway.connection "google_drive" "google-work" "oauth3"
                        true))) = 6
  /\ (let o := run (connect "google-work" false)
                 (Gateway.drive_pending (Some 6)) in
      ended o = inr tt
      /\ length (requests (trace o)) = 8
      /\ Gateway.clock (state_after o) = 6).
Proof.
  destruct (C4_polling_stops_at_first_success "google_drive" "google-work" 6
              (Gateway.drive_pending (Some 6)) []
              (Gateway.connection "google_drive" "google-work" "oauth3" true))
    as [Hrun [Hreq _]].
  - lia.
  - vm_compute. reflexivity.
  - vm_compute. reflexivity.
  - split; [exact Hrun|]. split; [rewrite Hreq; reflexivity|].
    vm_compute. repeat split.
Defined.

End ToolsFacts.


(* ------------------------------------------------------------------ *)
(** ** Further properties of the tool commands *)

Module ToolsMoreFacts.
Import Py Cmd Tools.

Ltac cmd_unfold :=
  cbv beta iota delta
    [bind ret raise eval gets modify when try_except
     call emit sleep get post delete confirm browser_open with_client
     gateway_url info error success warning lookup_connection failed_to
     fst snd].

Ltac crunch :=
  cbn [negb andb orb fst snd app String.eqb Ascii.eqb Bool.eqb
       known_method truthy_opt opt_str].

Ltac crunch_in H :=
  cbn [negb andb orb fst snd app String.eqb Ascii.eqb Bool.eqb
       known_method truthy_opt opt_str] in H.

Section AddMore.
Context {S : Type} `{Collaborators S}.

(** X1.  With the client at hand, [add] on the bare family name [google],
    in any letter case, ends on the invalid-tool-name error with exit code 1
    and without a request, whatever the method and the credentials given:
    the name is checked before the method. *)
Theorem add_rejects_bare_family_name (tool connection_id method : string)
    (display_name token client_id client_secret redirect_uri : option string)
    (s s1 : S) :
  get_client s = (inr tt, s1) ->
  lower tool = "google" ->
  let o := run (add tool connection_id display_name method token client_id
                  client_secret redirect_uri) s in
  o = {| ended := inl (Exit 1);
         state_after := s1;
         trace := (invalid_google_lines connection_id method
                   ++ [FailedTo "add connection" (Exit 1)])%list |}
  /\ errors (trace o) = [AmbiguousTool; FailedTo "add connection" (Exit 1)]
  /\ requests (trace o) = [].
Proof.
  intros Hclient Hname o.
  assert (Ho : o = {| ended := inl (Exit 1);
                      state_after := s1;
                      trace := (invalid_google_lines connection_id method
                                ++ [FailedTo "add connection" (Exit 1)])%list |}).
  { subst o. unfold run, add, add_validate, invalid_google. cmd_unfold.
    cbn [fst snd]. rewrite Hclient, Hname. reflexivity. }
  split; [exact Ho|]. rewrite Ho. split; reflexivity.
Qed.

(** X2.  With the client at hand, [add] with a method other than
    [api_credentials], [oauth3] and [oauth] ends on the method error with
    exit code 1 and without a request. *)
Theorem add_rejects_unknown_method (tool connection_id method : string)
    (display_name token client_id client_secret redirect_uri : option string)
    (s s1 : S) :
  get_client s = (inr tt, s1) ->
  lower tool <> "google" ->
  known_method method = false ->
  run (add tool connection_id display_name method token client_id
         client_secret redirect_uri) s
  = {| ended := inl (Exit 1);
       state_after := s1;
       trace := [Out Error [Txt "Method must be 'api_credentials', 'oauth3', or 'oauth'"];
                 FailedTo "add connection" (Exit 1)] |}.
Proof.
  intros Hclient Hname Hmethod.
  apply String.eqb_neq in Hname.
  unfold run, add, add_validate. cmd_unfold.
  rewrite Hclient, Hname, Hmethod. reflexivity.
Qed.

(** X3.  With method [oauth3] on an allow-listed tool, [add] issues the
    creation request and nothing else: a token, a client id or a client
    secret given on the command line is sent nowhere. *)
Theorem add_oauth3_sends_no_credentials (tool connection_id : string)
    (display_name token client_id client_secret redirect_uri : option string)
    (s s1 s2 : S) (answer : value) :
  get_client s = (inr tt, s1) ->
  lower tool <> "google" ->
  oauth3_allowed tool = true ->
  client_post "/api/v1/user-connections"
    (connection_data tool connection_id display_name "oauth3") s1
  = (inr answer, s2) ->
  run (add tool connection_id display_name "oauth3" token client_id
         client_secret redirect_uri) s
  = {| ended := inr tt;
       state_after := s2;
       trace :=
         (add_announcement tool connection_id "oauth3"
          ++ [Post "/api/v1/user-connections"
                (connection_data tool connection_id display_name "oauth3");
              Out Success [Txt ("✅ Connection entry created: " ++ connection_id)];
              Out Success [Txt "✅ Connection configured with platform OAuth"];
              Out Info [Txt ""];
              Out Info [Txt ("Next: Run 'afctl tools connect " ++ connection_id
                             ++ "' to authenticate")]]
          ++ add_closing connection_id)%list |}.
Proof.
  intros Hclient Hname Hallow Hpost.
  apply String.eqb_neq in Hname.
  unfold run, add, add_validate. cmd_unfold.
  rewrite Hclient, Hname, Hallow. crunch. rewrite Hpost. reflexivity.
Qed.

(** X4.  With method [api_credentials] and a token, [add] creates the entry
    and stores the token: under [/config] as [integration_token] for Notion,
    under [/connection] as [api_token] for any other tool.  The token wins
    over a client id and secret given with it: they are not sent. *)
Theorem add_token_wins (tool connection_id token : string)
    (display_name client_id client_secret redirect_uri : option string)
    (s s1 s2 s3 : S) (answer answer' : value) :
  get_client s = (inr tt, s1) ->
  lower tool <> "google" ->
  token <> "" ->
  client_post "/api/v1/user-connections"
    (connection_data tool connection_id display_name "api_credentials") s1
  = (inr answer, s2) ->
  client_post (add_token_endpoint tool connection_id)
    (token_payload tool token) s2
  = (inr answer', s3) ->
  run (add tool connection_id display_name "api_credentials" (Some token)
         client_id client_secret redirect_uri) s
  = {| ended := inr tt;
       state_after := s3;
       trace :=
         (add_announcement tool connection_id "api_credentials"
          ++ [Post "/api/v1/user-connections"
                (connection_data tool connection_id display_name
                   "api_credentials");
              Out Success [Txt ("✅ Connection entry created: " ++ connection_id)];
              Out Info [Txt "Storing API token..."];
              Post (add_token_endpoint tool connection_id)
                (token_payload tool token);
              Out Success [Txt "✅ API token stored"];
              Out Success [Txt ("✅ Connection '" ++ connection_id
                                ++ "' is ready to use!")]]
          ++ add_closing connection_id)%list |}.
Proof.
  intros Hclient Hname Htoken Hcreate Hstore.
  apply String.eqb_neq in Hname. apply String.eqb_neq in Htoken.
  unfold run, add, add_validate, add_store_credentials. cmd_unfold.
  rewrite Hclient, Hname. crunch. rewrite !Htoken. crunch.
  rewrite Hcreate. crunch.
  unfold token_payload, add_token_endpoint in *.
  destruct (tool =? "notion"); rewrite Hstore; reflexivity.
Qed.

Lemma default_redirect_nonempty gw ns :
  (gw ++ "/api/v1/tools/" ++ ns ++ "/oauth/callback" =? "") = false.
Proof. destruct gw; reflexivity. Qed.

(** X5.  With method [api_credentials], no token, and a client id and
    secret, [add] creates the entry and stores the OAuth app under the
    resolved namespace.  The body always carries a redirect URI: the one
    given, or else the callback of the namespace at the configured gateway
    ([<gateway_url>/api/v1/tools/<namespace>/oauth/callback]). *)
Theorem add_oauth_app_redirect_uri (tool connection_id client_id client_secret
    : string) (display_name token redirect_uri : option string)
    (s s1 s2 s3 : S) (answer answer' : value) :
  get_client s = (inr tt, s1) ->
  lower tool <> "google" ->
  truthy_opt token = false ->
  client_id <> "" ->
  client_secret <> "" ->
  client_post "/api/v1/user-connections"
    (connection_data tool connection_id display_name "api_credentials") s1
  = (inr answer, s2) ->
  let uri :=
    if truthy_opt redirect_uri then opt_str redirect_uri
    else config_gateway_url s2 ++ "/api/v1/tools/"
           ++ (if is_google tool then "google" else tool) ++ "/oauth/callback" in
  let body :=
    VDict [("client_id", VStr client_id);
           ("client_secret", VStr client_secret);
           ("redirect_uri", VStr uri)] in
  client_post (add_config_endpoint tool connection_id) body s2
  = (inr answer', s3) ->
  let o := run (add tool connection_id display_name "api_credentials" token
                  (Some client_id) (Some client_secret) redirect_uri) s in
  ended o = inr tt
  /\ state_after o = s3
  /\ requests (trace o)
     = [Post "/api/v1/user-connections"
          (connection_data tool connection_id display_name "api_credentials");
        Post (add_config_endpoint tool connection_id) body]
  /\ errors (trace o) = [].
Proof.
  intros Hclient Hname Htoken Hid Hsecret Hcreate uri body Hstore o.
  assert (Hrun : exists tr,
             o = {| ended := inr tt; state_after := s3; trace := tr |}
             /\ requests tr
                = [Post "/api/v1/user-connections"
                     (connection_data tool connection_id display_name
                        "api_credentials");
                   Post (add_config_endpoint tool connection_id) body]
             /\ errors tr = []).
  { subst o body uri.
    apply String.eqb_neq in Hname. apply String.eqb_neq in Hid.
    apply String.eqb_neq in Hsecret.
    unfold run, add, add_validate, add_store_credentials. cmd_unfold.
    rewrite Hclient, Hname. crunch. rewrite !Htoken, !Hid, !Hsecret. crunch.
    rewrite Hcreate. crunch.
    destruct redirect_uri as [r|]; crunch_in Hstore; crunch.
    - destruct (r =? "") eqn:Hr; crunch_in Hstore; crunch.
      + rewrite default_redirect_nonempty. crunch. rewrite Hstore.
        eexists. split; [reflexivity|]. split; reflexivity.
      + rewrite Hr. crunch. rewrite Hstore.
        eexists. split; [reflexivity|]. split; reflexivity.
    - rewrite default_redirect_nonempty. crunch. rewrite Hstore.
      eexists. split; [reflexivity|]. split; reflexivity. }
  destruct Hrun as [tr [Ho [Hreq Herr]]]. rewrite Ho. cbn [ended state_after trace].
  auto.
Qed.

(** X6.  [add] is not undone when it fails half-way.  When the creation
    request is refused, nothing else is sent.  When the entry is created and
    the request that stores the token raises, the command reports the
    failure and exits with code 1, and no request removes the entry: the
    outside world is left as the failed request left it. *)
Theorem add_token_failures (tool connection_id token : string)
    (display_name client_id client_secret redirect_uri : option string)
    (s s1 : S) :
  get_client s = (inr tt, s1) ->
  lower tool <> "google" ->
  token <> "" ->
  let o := run (add tool connection_id display_name "api_credentials"
                  (Some token) client_id client_secret redirect_uri) s in
  let create := Post "/api/v1/user-connections"
                  (connection_data tool connection_id display_name
                     "api_credentials") in
  (forall e s2,
     client_post "/api/v1/user-connections"
       (connection_data tool connection_id display_name "api_credentials") s1
     = (inl e, s2) ->
     ended o = inl (Exit 1)
     /\ state_after o = s2
     /\ requests (trace o) = [create]
     /\ errors (trace o) = [FailedTo "add connection" e])
  /\ (forall answer e s2 s3,
        client_post "/api/v1/user-connections"
          (connection_data tool connection_id display_name "api_credentials") s1
        = (inr answer, s2) ->
        client_post (add_token_endpoint tool connection_id)
          (token_payload tool token) s2
        = (inl e, s3) ->
        ended o = inl (Exit 1)
        /\ state_after o = s3
        /\ requests (trace o)
           = [create;
              Post (add_token_endpoint tool connection_id)
                (token_payload tool token)]
        /\ errors (trace o) = [FailedTo "add connection" e]
        /\ In (Out Success [Txt ("✅ Connection entry created: " ++ connection_id)])
             (trace o)).
Proof.
  intros Hclient Hname Htoken o create. subst create.
  apply String.eqb_neq in Hname. apply String.eqb_neq in Htoken.
  split.
  - intros e s2 Hcreate.
    assert (Hrun : exists tr,
               o = {| ended := inl (Exit 1); state_after := s2; trace := tr |}
               /\ requests tr
                  = [Post "/api/v1/user-connections"
                       (connection_data tool connection_id display_name
                          "api_credentials")]
               /\ errors tr = [FailedTo "add connection" e]).
    { subst o.
      unfold run, add, add_validate, add_store_credentials. cmd_unfold.
      rewrite Hclient, Hname. crunch. rewrite !Htoken. crunch.
      rewrite Hcreate. eexists. split; [reflexivity|]. split; reflexivity. }
    destruct Hrun as [tr [Ho [Hreq Herr]]]. rewrite Ho.
    cbn [ended state_after trace]. auto.
  - intros answer e s2 s3 Hcreate Hstore.
    assert (Hrun : exists tr,
               o = {| ended := inl (Exit 1); state_after := s3; trace := tr |}
               /\ requests tr
                  = [Post "/api/v1/user-connections"
                       (connection_data tool connection_id display_name
                          "api_credentials");
                     Post (add_token_endpoint tool connection_id)
                       (token_payload tool token)]
               /\ errors tr = [FailedTo "add connection" e]
               /\ In (Out Success [Txt ("✅ Connection entry created: "
                                        ++ connection_id)]) tr).
    { subst o.
      unfold run, add, add_validate, add_store_credentials. cmd_unfold.
      rewrite Hclient, Hname. crunch. rewrite !Htoken. crunch.
      rewrite Hcreate. crunch.
      unfold token_payload, add_token_endpoint in *.
      destruct (tool =? "notion"); rewrite Hstore;
        (eexists; split; [reflexivity|]; split; [reflexivity|];
         split; [reflexivity|]);
        right; right; right; right; left; reflexivity. }
    destruct Hrun as [tr [Ho [Hreq [Herr Hin]]]]. rewrite Ho.
    cbn [ended state_after trace]. auto.
Qed.

Ltac split_branch :=
  match goal with
  | |- context [get_client ?s] =>
      destruct (get_client s) as [[?|[]] ?]
  | |- context [if ?b then _ else _] => destruct b eqn:?
  | |- context [client_post ?p ?d ?s] =>
      destruct (client_post p d s) as [[?|?] ?]
  end; crunch.

(** X7.  Whatever it is given and whatever the gateway answers, [add] asks
    no confirmation, opens no browser, and issues no request but POSTs, at
    most two: the first one creates the entry, and a second one is sent
    only with the method [api_credentials], to the token endpoint or to the
    OAuth app endpoint of the connection. *)
Theorem add_requests_shape (tool connection_id method : string)
    (display_name token client_id client_secret redirect_uri : option string)
    (s : S) :
  let tr := trace (run (add tool connection_id display_name method token
                          client_id client_secret redirect_uri) s) in
  let create := Post "/api/v1/user-connections"
                  (connection_data tool connection_id display_name method) in
  filter is_confirm tr = []
  /\ filter is_browser_open tr = []
  /\ (requests tr = []
      \/ requests tr = [create]
      \/ exists path body,
           requests tr = [create; Post path body]
           /\ method = "api_credentials"
           /\ (path = add_token_endpoint tool connection_id
               \/ path = add_config_endpoint tool connection_id)).
Proof.
  intros tr create. subst tr create.
  unfold run, add, add_validate, invalid_google, add_store_credentials.
  cmd_unfold.
  repeat split_branch;
    repeat match goal with
           | E : (_ =? _) = true |- _ => apply String.eqb_eq in E; subst
           end;
    cbn [trace];
    (split; [reflexivity|]); (split; [reflexivity|]);
    first [ left; reflexivity
          | right; left; reflexivity
          | right; right; eexists; eexists;
            split; [reflexivity|]; split; [reflexivity|];
            first [left; reflexivity | right; reflexivity] ].
Qed.

End AddMore.

Section ConnectMore.
Context {S : Type} `{Collaborators S}.

Ltac open_listing s :=
  destruct (get_client s) as [[?e|[]] ?s1]; cbn [fst snd]; [discriminate|];
  destruct (client_get "/api/v1/user-connections" _)
    as [[?e|?connections] ?s2]; cbn [fst snd]; [discriminate|];
  destruct (iterate _) as [?e|?conns]; [discriminate|];
  destruct (find_connection _ _) as [?e|[?c|]]; try discriminate.

(** X8.  [connect] on an identifier that the gateway does not list reports
    that the connection is not found and exits with code 1 after the one
    listing request: nothing is initiated and no browser is opened. *)
Theorem connect_unknown_connection (connection_id : string) (yes : bool)
    (s s2 : S) :
  listing connection_id s = (Absent, s2) ->
  run (connect connection_id yes) s
  = {| ended := inl (Exit 1);
       state_after := s2;
       trace := [Get "/api/v1/user-connections";
                 Out Error [Txt ("Connection '" ++ connection_id ++ "' not found")];
                 Out Info [Txt "Run 'afctl tools list' to see available connections"];
                 FailedTo "connect" (Exit 1)] |}.
Proof.
  unfold run, connect, listing, observe. cmd_unfold. cbn [fst snd].
  open_listing s.
  - destruct (Py.get c "connected") as [?|f]; [discriminate|].
    destruct (truthy f); discriminate.
  - intros [= ->]. reflexivity.
Qed.

(** X9.  When the connection is already connected and [--yes] is not given,
    [connect] asks once whether to re-authorize, and on a refusal returns
    without initiating anything: the listing is its only request. *)
Theorem connect_declined_reauthorization (connection_id : string)
    (s s2 s3 : S) (conn tool method : value) :
  listing connection_id s = (Connected conn, s2) ->
  subscript conn "tool" = inr tool ->
  subscript conn "method" = inr method ->
  typer_confirm [Txt "Do you want to reconnect (re-authorize)?"] s2
  = (inr false, s3) ->
  run (connect connection_id false) s
  = {| ended := inr tt;
       state_after := s3;
       trace := [Get "/api/v1/user-connections";
                 Out Warning [Txt ("Connection '" ++ connection_id
                                   ++ "' is already connected")];
                 Confirm [Txt "Do you want to reconnect (re-authorize)?"]] |}.
Proof.
  intros Hlist Htool Hmethod Hconfirm. revert Hlist.
  unfold run, connect, listing, observe. cmd_unfold. cbn [fst snd].
  open_listing s.
  destruct (Py.get c "connected") as [?|f] eqn:Hget; [discriminate|].
  destruct (truthy f) eqn:Hf; [|discriminate].
  intros [= -> ->].
  destruct conn as [| | | | |d]; try discriminate.
  destruct d as [|kv d]; [discriminate|].
  cbn [truthy negb]. rewrite Htool, Hmethod. cbn [fst snd negb].
  rewrite Hconfirm. reflexivity.
Qed.

Lemma or_false a b : truthy (or_ a b) = false -> truthy a = false /\ truthy b = false.
Proof.
  unfold or_. destruct (truthy a) eqn:Ha; [congruence|auto].
Qed.

(** X10.  When the answer to the initiation carries no usable URL under
    [authorization_url], [auth_url] or [oauth_url], [connect] reports it,
    names the keys of the answer and exits with code 1: the browser is not
    opened and the connection is not polled. *)
Theorem connect_without_authorization_url (connection_id tool : string)
    (yes : bool) (s s2 s3 : S) (conn method : value)
    (d : list (string * value)) :
  listing connection_id s = (NotConnected conn, s2) ->
  subscript conn "tool" = inr (VStr tool) ->
  subscript conn "method" = inr method ->
  client_post (connect_initiate_path tool method connection_id) (VDict []) s2
  = (inr (VDict d), s3) ->
  truthy (auth_url_of d) = false ->
  run (connect connection_id yes) s
  = {| ended := inl (Exit 1);
       state_after := s3;
       trace := [Get "/api/v1/user-connections";
                 Out Info [Txt ("Initiating OAuth for " ++ tool ++ "...")];
                 Post (connect_initiate_path tool method connection_id) (VDict []);
                 Out Error [Txt "Failed to get authorization URL from backend"];
                 Out Error [Txt "Response keys: ";
                            Val (VList (map (fun kv => VStr (fst kv)) d))];
                 FailedTo "connect" (Exit 1)] |}.
Proof.
  intros Hlist Htool Hmethod Hpost Hurl. revert Hlist.
  apply or_false in Hurl as [Ha Hbc]. apply or_false in Hbc as [Hb Hc].
  unfold run, connect, listing, observe. cmd_unfold. cbn [fst snd].
  open_listing s.
  destruct (Py.get c "connected") as [?|f] eqn:Hget; [discriminate|].
  destruct (truthy f) eqn:Hf; [discriminate|].
  intros [= -> ->].
  destruct conn as [| | | | |dc]; try discriminate.
  destruct dc as [|kv dc]; [discriminate|].
  cbn [truthy negb]. rewrite Htool, Hmethod. cbn [fst snd negb].
  unfold connect_authorize, as_str. cmd_unfold. cbn [fst snd app].
  rewrite Hpost. cbn [Py.get fst snd]. rewrite Ha. cbn [fst snd].
  rewrite Hb. cbn [fst snd]. rewrite Hc. reflexivity.
Qed.

(** X11.  How [connect] composes.  For a connection that is listed as not
    yet connected, once the initiation is answered with a URL
    ([authorization_url], else [auth_url], else [oauth_url]) and the browser
    call returns, [connect] has issued one listing and one initiation
    request and has opened the browser once, on that URL; the rest of the
    command is the polling loop, and what the loop raises is reported with
    exit code 1. *)
Theorem connect_reaches_polling (connection_id tool : string) (yes : bool)
    (s s2 s3 s4 : S) (conn method : value) (d : list (string * value)) :
  listing connection_id s = (NotConnected conn, s2) ->
  subscript conn "tool" = inr (VStr tool) ->
  subscript conn "method" = inr method ->
  client_post (connect_initiate_path tool method connection_id) (VDict []) s2
  = (inr (VDict d), s3) ->
  truthy (auth_url_of d) = true ->
  webbrowser_open (auth_url_of d) s3 = (inr tt, s4) ->
  run (connect connection_id yes) s
  = handled "connect"
      (connect_await tool connection_id
         (s4, connect_preamble tool method connection_id (auth_url_of d))).
Proof.
  intros Hlist Htool Hmethod Hpost Hurl Hopen. revert Hlist.
  unfold run, connect, listing, observe. cmd_unfold. cbn [fst snd].
  open_listing s.
  destruct (Py.get c "connected") as [?|f] eqn:Hget; [discriminate|].
  destruct (truthy f) eqn:Hf; [discriminate|].
  intros [= -> ->].
  destruct conn as [| | | | |dc]; try discriminate.
  destruct dc as [|kv dc]; [discriminate|].
  cbn [truthy negb]. rewrite Htool, Hmethod. cbn [fst snd negb].
  unfold connect_authorize, as_str. cmd_unfold. cbn [fst snd app].
  rewrite Hpost. cbn [Py.get fst snd].
  assert (Hsel :
            (if truthy (match assoc "authorization_url" d with
                        | Some v => v | None => VNone end)
             then (inr (match assoc "authorization_url" d with
                        | Some v => v | None => VNone end) : exn + value)
             else if truthy (match assoc "auth_url" d with
                             | Some v => v | None => VNone end)
                  then inr (match assoc "auth_url" d with
                            | Some v => v | None => VNone end)
                  else inr (match assoc "oauth_url" d with
                            | Some v => v | None => VNone end))
            = inr (auth_url_of d)).
  { unfold auth_url_of, or_.
    destruct (truthy (match assoc "authorization_url" d with
                      | Some v => v | None => VNone end)); [reflexivity|].
    destruct (truthy (match assoc "auth_url" d with
                      | Some v => v | None => VNone end)); reflexivity. }
  unfold auth_url_of, or_ in Hurl, Hopen |- *.
  destruct (truthy (match assoc "authorization_url" d with
                    | Some v => v | None => VNone end)) eqn:Ha;
    cbn [fst snd].
  - rewrite Hurl. cbn [negb fst snd app]. rewrite Hopen. cbn [fst snd app].
    unfold handled, connect_preamble.
    destruct (connect_await _ _ _) as [[e|[]] [s' tr]]; reflexivity.
  - destruct (truthy (match assoc "auth_url" d with
                      | Some v => v | None => VNone end)) eqn:Hb;
      cbn [fst snd]; rewrite Hurl; cbn [negb fst snd app];
      rewrite Hopen; cbn [fst snd app];
      unfold handled, connect_preamble;
      destruct (connect_await _ _ _) as [[e|[]] [s' tr]]; reflexivity.
Qed.

(** X12.  A status check whose request raises ends the polling loop of
    [connect] at once, with that exception: the remaining attempts are not
    made and the timeout is not reported. *)
Theorem polling_stops_on_failed_check (tool connection_id : string)
    (j : nat) (s s' : S) (tr : list event) (e : exn) :
  j < 120 ->
  quiet_polls connection_id j s = true ->
  client_get "/api/v1/user-connections"
    (time_sleep 1 (after_polls connection_id j s)) = (inl e, s') ->
  connect_await tool connection_id (s, tr)
  = (inl e, (s', (tr ++ polling_trace (Datatypes.S j))%list)).
Proof.
  intros Hj Hq Hget.
  unfold connect_await, max_attempts.
  replace 120 with (j + Datatypes.S (119 - j)) by lia.
  cbv beta iota delta [bind].
  rewrite (ToolsFacts.poll_quiet _ _ _ _ _ _ Hq).
  cbn [poll]. cmd_unfold. cbn [fst snd]. rewrite Hget. cbn [fst snd].
  replace (polling_trace (Datatypes.S j))
    with (polling_trace j ++ [Sleep 1; Get "/api/v1/user-connections"])%list.
  - now repeat rewrite <- app_assoc.
  - clear. induction j as [|j IH]; [reflexivity|].
    cbn [polling_trace app]. now rewrite IH.
Qed.

Lemma passive_filters ev :
  forallb passive ev = true ->
  filter is_post ev = [] /\ filter is_delete ev = []
  /\ filter is_browser_open ev = [] /\ filter is_confirm ev = [].
Proof.
  induction ev as [|e ev IH]; cbn; [auto|].
  intros Hp. apply andb_prop in Hp as [He Hev].
  destruct (IH Hev) as [H1 [H2 [H3 H4]]].
  destruct e; try discriminate; cbn; auto.
Qed.

Lemma quiet_ret {A} (a : A) : quiet (S:=S) (ret a).
Proof. intros s tr. exists []. cbn. now rewrite app_nil_r. Qed.

Lemma quiet_raise {A} (e : exn) : quiet (S:=S) (A:=A) (raise e).
Proof. intros s tr. exists []. cbn. now rewrite app_nil_r. Qed.

Lemma quiet_eval {A} (r : exn + A) : quiet (S:=S) (eval r).
Proof. intros s tr. exists []. cbn. now rewrite app_nil_r. Qed.

Lemma quiet_emit (e : event) : passive e = true -> quiet (S:=S) (emit e).
Proof.
  intros He s tr. exists [e]. cbn. split; [reflexivity|].
  unfold passive in He. now rewrite He.
Qed.

Lemma quiet_call {A} (e : event) (f : S -> (exn + A) * S) :
  passive e = true -> quiet (S:=S) (call e f).
Proof.
  intros He s tr. exists [e]. unfold call. cbn.
  destruct (f s) as [r s']. cbn. split; [reflexivity|].
  unfold passive in He. now rewrite He.
Qed.

Lemma quiet_bind {A B} (m : M world A) (k : A -> M world B) :
  quiet (S:=S) m -> (forall a, quiet (S:=S) (k a)) -> quiet (S:=S) (bind m k).
Proof.
  intros Hm Hk s tr. unfold bind.
  destruct (Hm s tr) as [ev1 [H1 P1]].
  destruct (m (s, tr)) as [[e|a] [s1 tr1]]; cbn [fst snd] in *; subst tr1.
  - now exists ev1.
  - destruct (Hk a s1 (tr ++ ev1)%list) as [ev2 [H2 P2]].
    exists (ev1 ++ ev2)%list. rewrite H2, app_assoc. split; [reflexivity|].
    now rewrite forallb_app, P1, P2.
Qed.

Ltac quiet_step :=
  first
    [ apply quiet_ret
    | apply quiet_raise
    | apply quiet_eval
    | apply quiet_emit; reflexivity
    | apply quiet_call; reflexivity
    | apply quiet_bind; [|intros]
    | match goal with
      | |- quiet (if ?b then _ else _) => destruct b
      | |- quiet (match ?x with _ => _ end) => destruct x
      end ].

Lemma show_field_quiet conn k label : quiet (S:=S) (show_field conn k label).
Proof.
  unfold show_field, when, info. repeat quiet_step.
Qed.

Lemma poll_quiet_trace tool connection_id n :
  quiet (S:=S) (poll tool connection_id n).
Proof.
  induction n as [|n IH]; cbn [poll].
  - apply quiet_ret.
  - unfold sleep, lookup_connection, get, info, success.
    repeat first [ exact IH | apply show_field_quiet | quiet_step ].
Qed.

Lemma connect_await_quiet tool connection_id :
  quiet (S:=S) (connect_await tool connection_id).
Proof.
  unfold connect_await, error, info.
  repeat first [ apply poll_quiet_trace | quiet_step ].
Qed.

Lemma connect_await_passive tool connection_id (s : S) tr :
  exists ev,
    snd (snd (connect_await tool connection_id (s, tr))) = (tr ++ ev)%list
    /\ forallb passive ev = true.
Proof. apply connect_await_quiet. Qed.

Ltac split_connect :=
  match goal with
  | |- context [get_client ?s] =>
      destruct (get_client s) as [[?|[]] ?]
  | |- context [client_get ?p ?s] =>
      destruct (client_get p s) as [[?|?] ?]
  | |- context [iterate ?v] => destruct (iterate v) as [?|?]
  | |- context [find_connection ?c ?l] =>
      destruct (find_connection c l) as [?|[?|]]
  | |- context [subscript ?c ?k] => destruct (subscript c k) as [?|?]
  | |- context [Py.get ?c ?k] => destruct (Py.get c k) as [?|?]
  | |- context [typer_confirm ?m ?s] =>
      destruct (typer_confirm m s) as [[?|[|]] ?]
  | |- context [as_str ?v ?a] => destruct (as_str v a) as [?|?]
  | |- context [client_post ?p ?d ?s] =>
      destruct (client_post p d s) as [[?|?] ?]
  | |- context [client_delete ?p ?s] =>
      destruct (client_delete p s) as [[?|?] ?]
  | |- context [webbrowser_open ?u ?s] =>
      destruct (webbrowser_open u s) as [[?|[]] ?]
  | |- context [if ?b then _ else _] => destruct b
  end; cbn [fst snd negb app].

(** X13.  Whatever the gateway and the operator answer, [connect] deletes
    nothing, posts at most once (the initiation), asks at most one
    confirmation (none with [--yes]) and opens the browser at most once; and
    it does not start polling unless it has opened the browser. *)
Theorem connect_requests_shape (connection_id : string) (yes : bool) (s : S) :
  let tr := trace (run (connect connection_id yes) s) in
  filter is_delete tr = []
  /\ length (filter is_post tr) <= 1
  /\ length (filter is_browser_open tr) <= 1
  /\ length (filter is_confirm tr) <= 1
  /\ (yes = true -> filter is_confirm tr = [])
  /\ (filter is_browser_open tr = [] -> filter is_sleep tr = []).
Proof.
  intros tr. subst tr. destruct yes.
  all: unfold run, connect, connect_authorize; cmd_unfold; cbn [negb].
  all: repeat split_connect;
    try match goal with
        | |- context [connect_await ?t ?c (?s0, ?t0)] =>
            let ev := fresh "ev" in
            let Hev := fresh "Hev" in
            let Pev := fresh "Pev" in
            destruct (connect_await_passive t c s0 t0) as [ev [Hev Pev]];
            destruct (connect_await t c (s0, t0)) as [[?|[]] [? ?]];
            cbn [fst snd] in Hev; subst;
            destruct (passive_filters ev Pev) as [? [? [? ?]]]
        end;
    cbn [trace];
    repeat rewrite filter_app;
    repeat match goal with
           | E : filter _ ?ev = [] |- _ => rewrite E
           end;
    cbn; repeat split; auto; try lia; try discriminate.
Qed.

End ConnectMore.

Section DisconnectMore.
Context {S : Type} `{Collaborators S}.

Ltac open_listing s :=
  destruct (get_client s) as [[?e|[]] ?s1]; cbn [fst snd]; [discriminate|];
  destruct (client_get "/api/v1/user-connections" _)
    as [[?e|?connections] ?s2]; cbn [fst snd]; [discriminate|];
  destruct (iterate _) as [?e|?conns]; [discriminate|];
  destruct (find_connection _ _) as [?e|[?c|]]; try discriminate.

(** X14.  When the operator refuses the confirmation, [disconnect] writes
    [Cancelled] and returns: no credentials are deleted. *)
Theorem disconnect_declined (connection_id : string) (s s2 s3 : S)
    (conn tool : value) :
  listing connection_id s = (Connected conn, s2) ->
  subscript conn "tool" = inr tool ->
  typer_confirm (disconnect_prompt tool connection_id) s2 = (inr false, s3) ->
  run (disconnect connection_id false) s
  = {| ended := inr tt;
       state_after := s3;
       trace := (Get "/api/v1/user-connections"
                 :: disconnect_confirmation false conn tool connection_id
                 ++ [Out Info [Txt "Cancelled"]])%list |}.
Proof.
  intros Hlist Htool Hconfirm. revert Hlist.
  unfold run, disconnect, listing, observe. ToolsFacts.cmd_unfold.
  cbn [fst snd].
  open_listing s.
  destruct (Py.get c "connected") as [?|f] eqn:Hget; [discriminate|].
  destruct (truthy f) eqn:Hf; [|discriminate].
  intros [= -> ->].
  destruct conn as [| | | | |d]; try discriminate.
  destruct d as [|kv d]; [discriminate|].
  cbn [truthy negb]. rewrite Htool.
  unfold disconnect_confirmation.
  destruct (Py.get (VDict (kv :: d)) "display_name") as [?|dn] eqn:Hdn;
    [discriminate|].
  cbn [negb fst snd app]. rewrite Hconfirm. reflexivity.
Qed.

(** X15.  [remove] does not depend on the state of the connection: for an
    entry that is listed, connected or not, once the operator agrees (or
    [--force] is given) it issues one DELETE of the entry itself and reports
    the removal; when the operator refuses, it writes [Cancelled] and
    returns without a deletion. *)
Theorem remove_deletes_entry (connection_id : string) (force : bool)
    (s s2 : S) (o : observation) (conn tool : value) :
  listing connection_id s = (o, s2) ->
  o = Connected conn \/ o = NotConnected conn ->
  subscript conn "tool" = inr tool ->
  let display_name :=
    match Py.get conn "display_name" with inr v => v | inl _ => VNone end in
  let prompt := remove_prompt tool (or_ display_name (VStr connection_id)) in
  (forall s3 s4 answer,
     consent force prompt s2 = Some s3 ->
     client_delete ("/api/v1/user-connections/" ++ connection_id) s3
     = (inr answer, s4) ->
     run (remove connection_id force) s
     = {| ended := inr tt;
          state_after := s4;
          trace := (Get "/api/v1/user-connections"
                    :: remove_confirmation force conn tool connection_id
                    ++ [Delete ("/api/v1/user-connections/" ++ connection_id);
                        Out Success [Txt ("✅ Removed: " ++ connection_id)]])%list |})
  /\ (forall s3,
        force = false ->
        typer_confirm prompt s2 = (inr false, s3) ->
        run (remove connection_id force) s
        = {| ended := inr tt;
             state_after := s3;
             trace := (Get "/api/v1/user-connections"
                       :: remove_confirmation force conn tool connection_id
                       ++ [Out Info [Txt "Cancelled"]])%list |}).
Proof.
  intros Hlist Ho Htool display_name prompt. subst display_name prompt.
  assert (Hfound : exists s1 connections conns,
             get_client s = (inr tt, s1)
             /\ client_get "/api/v1/user-connections" s1 = (inr connections, s2)
             /\ iterate connections = inr conns
             /\ find_connection connection_id conns = inr (Some conn)).
  { revert Hlist. unfold listing, observe.
    destruct (get_client s) as [[?e|[]] s1] eqn:Hclient;
      [destruct Ho; subst; discriminate|].
    destruct (client_get "/api/v1/user-connections" s1)
      as [[?e|connections] s2'] eqn:Hget; [destruct Ho; subst; discriminate|].
    destruct (iterate connections) as [?e|conns] eqn:Hiter;
      [destruct Ho; subst; discriminate|].
    destruct (find_connection connection_id conns) as [?e|[c|]] eqn:Hfind;
      try (destruct Ho; subst; discriminate).
    destruct (Py.get c "connected") as [?e|f];
      [destruct Ho; subst; discriminate|].
    destruct (truthy f); destruct Ho; subst; intros E; inversion E; subst;
      eauto 10. }
  destruct Hfound as [s1 [connections [conns [Hclient [Hget [Hiter Hfind]]]]]].
  assert (Hdict : exists kv d, conn = VDict (kv :: d)).
  { destruct conn as [| | | | |d]; try discriminate.
    destruct d as [|kv d]; [discriminate|]. eauto. }
  destruct Hdict as [kv [d ->]].
  destruct (Py.get (VDict (kv :: d)) "display_name") as [?e|dn] eqn:Hdn;
    [discriminate|].
  split.
  - intros s3 s4 answer Hconsent Hdelete.
    unfold run, remove, remove_delete, remove_confirmation.
    ToolsFacts.cmd_unfold. cbn [fst snd].
    rewrite Hclient. cbn [fst snd]. rewrite Hget. cbn [fst snd].
    rewrite Hiter, Hfind. cbn [truthy negb fst snd]. rewrite Htool, Hdn.
    unfold consent in Hconsent.
    destruct force; cbn [negb fst snd app].
    + injection Hconsent as <-. rewrite Hdelete. reflexivity.
    + destruct (typer_confirm _ s2) as [[?e|[|]] s3'] eqn:Hc;
        try discriminate.
      injection Hconsent as <-. cbn [negb fst snd app]. rewrite Hdelete.
      reflexivity.
  - intros s3 -> Hconfirm.
    unfold run, remove, remove_delete, remove_confirmation.
    ToolsFacts.cmd_unfold. cbn [fst snd].
    rewrite Hclient. cbn [fst snd]. rewrite Hget. cbn [fst snd].
    rewrite Hiter, Hfind. cbn [truthy negb fst snd]. rewrite Htool, Hdn.
    cbn [negb fst snd app]. rewrite Hconfirm. reflexivity.
Qed.

(** X16.  Whatever the gateway and the operator answer, [add], [connect]
    and [remove] end by returning or by [typer.Exit(1)]: every exception of
    their bodies, a malformed listing included, is reported by the handler
    and becomes exit code 1. *)
Theorem commands_return_or_exit (s : S) :
  (forall tool connection_id method display_name token client_id
          client_secret redirect_uri,
     let o := run (add tool connection_id display_name method token client_id
                     client_secret redirect_uri) s in
     ended o = inr tt \/ ended o = inl (Exit 1))
  /\ (forall connection_id yes,
        let o := run (connect connection_id yes) s in
        ended o = inr tt \/ ended o = inl (Exit 1))
  /\ (forall connection_id force,
        let o := run (remove connection_id force) s in
        ended o = inr tt \/ ended o = inl (Exit 1)).
Proof.
  split; [|split]; intros; apply ToolsFacts.handled_returns_or_exits.
Qed.

Ltac split_lookup :=
  match goal with
  | |- context [get_client ?s] =>
      destruct (get_client s) as [[?|[]] ?]
  | |- context [client_get ?p ?s] =>
      destruct (client_get p s) as [[?|?] ?]
  | |- context [iterate ?v] => destruct (iterate v) as [?|?]
  | |- context [find_connection ?c ?l] =>
      destruct (find_connection c l) as [?|[?|]]
  | |- context [subscript ?c "tool"] =>
      destruct (subscript c "tool") as [?|[| | |?| |]] eqn:?
  | |- context [Py.get ?c ?k] => destruct (Py.get c k) as [?|?]
  | |- context [typer_confirm ?m ?s] =>
      destruct (typer_confirm m s) as [[?|[|]] ?]
  | |- context [client_delete ?p ?s] =>
      destruct (client_delete p s) as [[?|?] ?]
  | |- context [truthy ?v] => is_var v; destruct (truthy v)
  | |- context [if ?b then _ else _] => destruct b
  end; cbn [fst snd negb app as_str truthy].

(** X19.  Whatever the gateway and the operator answer, [disconnect] posts
    nothing and opens no browser, and it deletes at most once: only after
    the listing has shown the connection connected, and only the
    credentials of that connection under the namespace resolved from the
    listed tool. *)
Theorem disconnect_requests_shape (connection_id : string) (force : bool)
    (s : S) :
  let tr := trace (run (disconnect connection_id force) s) in
  filter is_post tr = []
  /\ filter is_browser_open tr = []
  /\ (filter is_delete tr = []
      \/ exists conn tool,
           fst (listing connection_id s) = Connected conn
           /\ subscript conn "tool" = inr (VStr tool)
           /\ filter is_delete tr = [Delete (disconnect_path tool connection_id)]).
Proof.
  intros tr. subst tr. destruct force.
  all: unfold run, disconnect, disconnect_delete, listing, observe;
    ToolsFacts.cmd_unfold; cbn [fst snd negb truthy].
  all: repeat split_lookup; cbn [trace];
    (split; [reflexivity|]); (split; [reflexivity|]);
    first [ left; reflexivity
          | right; eexists; eexists;
            split; [reflexivity|]; split; [eassumption|reflexivity] ].
Qed.

(** X20.  Whatever the gateway and the operator answer, [remove] posts
    nothing, asks no confirmation under [--force], and deletes at most
    once, and then the entry of the connection it was given and nothing
    else. *)
Theorem remove_requests_shape (connection_id : string) (force : bool)
    (s : S) :
  let tr := trace (run (remove connection_id force) s) in
  filter is_post tr = []
  /\ (force = true -> filter is_confirm tr = [])
  /\ (filter is_delete tr = []
      \/ filter is_delete tr
         = [Delete ("/api/v1/user-connections/" ++ connection_id)]).
Proof.
  intros tr. subst tr. destruct force.
  all: unfold run, remove, remove_delete;
    ToolsFacts.cmd_unfold; cbn [fst snd negb truthy].
  all: repeat split_lookup; cbn [trace];
    (split; [reflexivity|]);
    (split; [first [reflexivity | discriminate]|]);
    first [left; reflexivity | right; reflexivity].
Qed.

End DisconnectMore.

(** X17.  The search of a listing returns an entry exactly when that entry
    carries the identifier and every entry before it is a dict with another
    identifier: the first match wins and the entries after it are not
    looked at. *)
Theorem find_connection_first_match (connection_id : string)
    (conns : list value) (c : value) :
  find_connection connection_id conns = inr (Some c)
  <-> exists pre post,
        conns = (pre ++ c :: post)%list
        /\ Forall (fun x => exists v, Py.get x "connection_id" = inr v
                                      /\ eq_str v connection_id = false) pre
        /\ Py.get c "connection_id" = inr (VStr connection_id).
Proof.
  split.
  - revert c. induction conns as [|x conns IH]; intros c; cbn; [discriminate|].
    destruct (Py.get x "connection_id") as [e|v] eqn:Hx; [discriminate|].
    destruct (eq_str v connection_id) eqn:Hv.
    + intros [= <-]. exists [], conns. repeat split; [constructor|].
      destruct v; try discriminate. cbn in Hv.
      apply String.eqb_eq in Hv. now subst.
    + intros Hf. destruct (IH c Hf) as [pre [post [-> [Hpre Hc]]]].
      exists (x :: pre), post. repeat split; trivial.
      constructor; eauto.
  - intros [pre [post [-> [Hpre Hc]]]].
    induction Hpre as [|x pre [v [Hx Hv]] _ IH]; cbn.
    + rewrite Hc. cbn. now rewrite String.eqb_refl.
    + now rewrite Hx, Hv.
Qed.

(** X18.  Outside the Google family a tool is its own namespace, without a
    [tool_type] parameter, for storing a token or an OAuth app, for
    initiating and for deleting credentials; only Notion initiates under
    [notion_oauth] when the method is [oauth3].  A connection whose tool is
    listed as the bare name [google] has its credentials deleted under
    [google] with [tool_type=google]. *)
Theorem other_tools_own_namespace (tool connection_id : string)
    (method : value) :
  is_google tool = false ->
  tool <> "google" ->
  let oauth3 := eq_str method "oauth3" in
  add_config_endpoint tool connection_id
  = "/api/v1/tools/" ++ tool ++ "/config?connection_id=" ++ connection_id
  /\ add_token_endpoint tool connection_id
     = "/api/v1/tools/" ++ tool
         ++ (if tool =? "notion" then "/config" else "/connection")
         ++ "?connection_id=" ++ connection_id
  /\ disconnect_path tool connection_id
     = "/api/v1/tools/" ++ tool ++ "/connection?connection_id=" ++ connection_id
  /\ connect_initiate_path tool method connection_id
     = "/api/v1/tools/"
         ++ (if (tool =? "notion") && oauth3 then "notion_oauth" else tool)
         ++ "/connect/initiate?connection_id=" ++ connection_id
         ++ (if oauth3 then "&method=oauth3" else "")
  /\ disconnect_path "google" connection_id
     = "/api/v1/tools/google/connection?connection_id=" ++ connection_id
         ++ "&tool_type=google".
Proof.
  intros Hg Hname oauth3. subst oauth3.
  apply String.eqb_neq in Hname.
  assert (Hnil : forall a : string, (a ++ "")%string = a).
  { induction a as [|ch a IH]; cbn; [reflexivity | now rewrite IH]. }
  unfold add_config_endpoint, add_token_endpoint, disconnect_path,
    connect_initiate_path, connect_api_tool_name.
  rewrite Hg, Hname, !Hnil.
  split; [reflexivity|]. split; [destruct (tool =? "notion"); reflexivity|].
  split; [reflexivity|]. split; [|reflexivity].
  destruct (tool =? "notion") eqn:Hn.
  - apply String.eqb_eq in Hn. subst.
    destruct (eq_str method "oauth3"); reflexivity.
  - destruct (eq_str method "oauth3"); reflexivity.
Qed.

(** *** The properties above at sample runs *)

Lemma add_rejects_bare_family_name_witness :
  let o := run (add "Google" "work" None "oauth3" (Some "ya29.token") None None
                  None) Gateway.empty in
  o = {| ended := inl (Exit 1);
         state_after := Gateway.empty;
         trace := (invalid_google_lines "work" "oauth3"
                   ++ [FailedTo "add connection" (Exit 1)])%list |}
  /\ errors (trace o) = [AmbiguousTool; FailedTo "add connection" (Exit 1)]
  /\ requests (trace o) = [].
Proof.
  apply (@add_rejects_bare_family_name Gateway.state Gateway.collaborators
           "Google" "work" "oauth3" None (Some "ya29.token") None None None
           Gateway.empty Gateway.empty).
  - reflexivity.
  - reflexivity.
Defined.

Lemma add_rejects_unknown_method_witness :
  run (add "slack" "test" None "api" (Some "xoxb-1") None None None)
    Gateway.empty
  = {| ended := inl (Exit 1);
       state_after := Gateway.empty;
       trace := [Out Error [Txt "Method must be 'api_credentials', 'oauth3', or 'oauth'"];
                 FailedTo "add connection" (Exit 1)] |}.
Proof.
  apply (@add_rejects_unknown_method Gateway.state Gateway.collaborators
           "slack" "test" "api" None (Some "xoxb-1") None None None
           Gateway.empty Gateway.empty).
  - reflexivity.
  - discriminate.
  - reflexivity.
Defined.

Lemma add_oauth3_sends_no_credentials_witness :
  requests (trace (run (add "slack" "slack-work" None "oauth3" (Some "xoxb-1")
                          (Some "id") (Some "secret") None) Gateway.empty))
  = [Post "/api/v1/user-connections"
       (connection_data "slack" "slack-work" None "oauth3")].
Proof.
  rewrite (@add_oauth3_sends_no_credentials Gateway.state Gateway.collaborators
             "slack" "slack-work" None (Some "xoxb-1") (Some "id")
             (Some "secret") None Gateway.empty Gateway.empty
             (Gateway.with_entries
                [Gateway.set_connected false
                   (connection_data "slack" "slack-work" None "oauth3")]
                Gateway.empty)
             (connection_data "slack" "slack-work" None "oauth3")).
  - reflexivity.
  - reflexivity.
  - discriminate.
  - reflexivity.
  - reflexivity.
Defined.

Lemma add_token_wins_witness :
  requests (trace (run (add "notion" "notion-work" None "api_credentials"
                          (Some "secret_1") (Some "id") (Some "secret") None)
                     Gateway.empty))
  = [Post "/api/v1/user-connections"
       (connection_data "notion" "notion-work" None "api_credentials");
     Post "/api/v1/tools/notion/config?connection_id=notion-work"
       (VDict [("integration_token", VStr "secret_1")])].
Proof.
  rewrite (@add_token_wins Gateway.state Gateway.collaborators
             "notion" "notion-work" "secret_1" None (Some "id") (Some "secret")
             None Gateway.empty Gateway.empty
             (Gateway.with_entries
                [Gateway.set_connected false
                   (connection_data "notion" "notion-work" None
                      "api_credentials")]
                Gateway.empty)
             (Gateway.with_entries
                [Gateway.set_connected false
                   (connection_data "notion" "notion-work" None
                      "api_credentials")]
                Gateway.empty)
             (connection_data "notion" "notion-work" None "api_credentials")
             (VDict [("status", VStr "stored")])).
  - reflexivity.
  - reflexivity.
  - discriminate.
  - discriminate.
  - reflexivity.
  - reflexivity.
Defined.

Lemma add_oauth_app_redirect_uri_witness :
  let o := run (add "google_drive" "drive" None "api_credentials" None
                  (Some "id.apps.example") (Some "GOCSPX-1") None)
             Gateway.empty in
  ended o = inr tt
  /\ state_after o
     = Gateway.with_entries
         [Gateway.set_connected false
            (connection_data "google_drive" "drive" None "api_credentials")]
         Gateway.empty
  /\ requests (trace o)
     = [Post "/api/v1/user-connections"
          (connection_data "google_drive" "drive" None "api_credentials");
        Post "/api/v1/tools/google/config?connection_id=drive&tool_type=google_drive"
          (VDict [("client_id", VStr "id.apps.example");
                  ("client_secret", VStr "GOCSPX-1");
                  ("redirect_uri",
                   VStr "https://gateway.example/api/v1/tools/google/oauth/callback")])]
  /\ errors (trace o) = [].
Proof.
  apply (@add_oauth_app_redirect_uri Gateway.state Gateway.collaborators
           "google_drive" "drive" "id.apps.example" "GOCSPX-1" None None None
           Gateway.empty Gateway.empty
           (Gateway.with_entries
              [Gateway.set_connected false
                 (connection_data "google_drive" "drive" None "api_credentials")]
              Gateway.empty)
           (Gateway.with_entries
              [Gateway.set_connected false
                 (connection_data "google_drive" "drive" None "api_credentials")]
              Gateway.empty)
           (connection_data "google_drive" "drive" None "api_credentials")
           (VDict [("status", VStr "stored")])).
  - reflexivity.
  - discriminate.
  - reflexivity.
  - discriminate.
  - discriminate.
  - reflexivity.
  - reflexivity.
Defined.

Lemma add_token_failures_witness :
  (let o := run (add "slack" "bot" None "api_credentials" (Some "xoxb-1") None
                   None None) (Flaky.serving 0 []) in
   ended o = inl (Exit 1)
   /\ state_after o = Flaky.serving 0 []
   /\ requests (trace o)
      = [Post "/api/v1/user-connections"
           (connection_data "slack" "bot" None "api_credentials")]
   /\ errors (trace o) = [FailedTo "add connection" Flaky.down])
  /\ (let o := run (add "slack" "bot" None "api_credentials" (Some "xoxb-1")
                      None None None) (Flaky.serving 1 []) in
      ended o = inl (Exit 1)
      /\ state_after o = Flaky.serving 0 []
      /\ requests (trace o)
         = [Post "/api/v1/user-connections"
              (connection_data "slack" "bot" None "api_credentials");
            Post "/api/v1/tools/slack/connection?connection_id=bot"
              (VDict [("api_token", VStr "xoxb-1")])]
      /\ errors (trace o) = [FailedTo "add connection" Flaky.down]
      /\ In (Out Success [Txt "✅ Connection entry created: bot"]) (trace o)).
Proof.
  split.
  - refine (proj1 (@add_token_failures Flaky.state Flaky.collaborators
                     "slack" "bot" "xoxb-1" None None None None
                     (Flaky.serving 0 []) (Flaky.serving 0 []) eq_refl _ _)
              Flaky.down (Flaky.serving 0 []) eq_refl); discriminate.
  - refine (proj2 (@add_token_failures Flaky.state Flaky.collaborators
                     "slack" "bot" "xoxb-1" None None None None
                     (Flaky.serving 1 []) (Flaky.serving 1 []) eq_refl _ _)
              (VDict [("status", VStr "accepted")]) Flaky.down
              (Flaky.serving 0 []) (Flaky.serving 0 []) eq_refl eq_refl); discriminate.
Defined.

Lemma connect_unknown_connection_witness :
  run (connect "nowhere" false) Gateway.slack_connected
  = {| ended := inl (Exit 1);
       state_after := Gateway.slack_connected;
       trace := [Get "/api/v1/user-connections";
                 Out Error [Txt "Connection 'nowhere' not found"];
                 Out Info [Txt "Run 'afctl tools list' to see available connections"];
                 FailedTo "connect" (Exit 1)] |}.
Proof.
  apply (@connect_unknown_connection Gateway.state Gateway.collaborators
           "nowhere" false Gateway.slack_connected Gateway.slack_connected).
  reflexivity.
Defined.

Lemma connect_declined_reauthorization_witness :
  run (connect "slack-work" false) (refusing Gateway.slack_connected)
  = {| ended := inr tt;
       state_after := refusing Gateway.slack_connected;
       trace := [Get "/api/v1/user-connections";
                 Out Warning [Txt "Connection 'slack-work' is already connected"];
                 Confirm [Txt "Do you want to reconnect (re-authorize)?"]] |}.
Proof.
  apply (@connect_declined_reauthorization Gateway.state Gateway.collaborators
           "slack-work" (refusing Gateway.slack_connected)
           (refusing Gateway.slack_connected)
           (refusing Gateway.slack_connected)
           (Gateway.connection "slack" "slack-work" "oauth3" true)
           (VStr "slack") (VStr "oauth3")).
  - reflexivity.
  - reflexivity.
  - reflexivity.
  - reflexivity.
Defined.

Lemma connect_without_authorization_url_witness :
  run (connect "gh" true)
    (Flaky.serving 2 [Gateway.connection "github" "gh" "api_credentials" false])
  = {| ended := inl (Exit 1);
       state_after
         := Flaky.serving 0 [Gateway.connection "github" "gh" "api_credentials" false];
       trace := [Get "/api/v1/user-connections";
                 Out Info [Txt "Initiating OAuth for github..."];
                 Post "/api/v1/tools/github/connect/initiate?connection_id=gh"
                   (VDict []);
                 Out Error [Txt "Failed to get authorization URL from backend"];
                 Out Error [Txt "Response keys: "; Val (VList [VStr "status"])];
                 FailedTo "connect" (Exit 1)] |}.
Proof.
  apply (@connect_without_authorization_url Flaky.state Flaky.collaborators
           "gh" "github" true
           (Flaky.serving 2 [Gateway.connection "github" "gh" "api_credentials" false])
           (Flaky.serving 1 [Gateway.connection "github" "gh" "api_credentials" false])
           (Flaky.serving 0 [Gateway.connection "github" "gh" "api_credentials" false])
           (Gateway.connection "github" "gh" "api_credentials" false)
           (VStr "api_credentials")
           [("status", VStr "accepted")]).
  - reflexivity.
  - reflexivity.
  - reflexivity.
  - reflexivity.
  - reflexivity.
Defined.

Lemma connect_reaches_polling_witness :
  run (connect "google-work" true) (Gateway.drive_pending (Some 6))
  = handled "connect"
      (connect_await "google_drive" "google-work"
         (Gateway.drive_pending (Some 6),
          connect_preamble "google_drive" (VStr "oauth3") "google-work"
            (VStr "https://accounts.example/authorize"))).
Proof.
  apply (@connect_reaches_polling Gateway.state Gateway.collaborators
           "google-work" "google_drive" true
           (Gateway.drive_pending (Some 6)) (Gateway.drive_pending (Some 6))
           (Gateway.drive_pending (Some 6)) (Gateway.drive_pending (Some 6))
           (Gateway.connection "google_drive" "google-work" "oauth3" false)
           (VStr "oauth3")
           [("authorization_url", VStr "https://accounts.example/authorize")]).
  - reflexivity.
  - reflexivity.
  - reflexivity.
  - reflexivity.
  - reflexivity.
  - reflexivity.
Defined.

Lemma polling_stops_on_failed_check_witness :
  connect_await "slack" "slack-work"
    (Flaky.serving 2 [Gateway.connection "slack" "slack-work" "oauth3" false], [])
  = (inl Flaky.down,
     (Flaky.serving 0 [Gateway.connection "slack" "slack-work" "oauth3" false],
      [Sleep 1; Get "/api/v1/user-connections";
       Sleep 1; Get "/api/v1/user-connections";
       Sleep 1; Get "/api/v1/user-connections"])).
Proof.
  apply (@polling_stops_on_failed_check Flaky.state Flaky.collaborators
           "slack" "slack-work" 2
           (Flaky.serving 2 [Gateway.connection "slack" "slack-work" "oauth3" false])
           (Flaky.serving 0 [Gateway.connection "slack" "slack-work" "oauth3" false])
           [] Flaky.down).
  - lia.
  - reflexivity.
  - reflexivity.
Defined.

Lemma disconnect_declined_witness :
  run (disconnect "slack-work" false) (refusing Gateway.slack_connected)
  = {| ended := inr tt;
       state_after := refusing Gateway.slack_connected;
       trace := [Get "/api/v1/user-connections";
                 Out Warning [Txt "This will remove OAuth tokens/credentials for '";
                              Val (VStr "slack-work"); Txt "'"];
                 Out Info [Txt "You can reconnect later with 'afctl tools connect'"];
                 Confirm [Txt "Disconnect "; Val (VStr "slack");
                          Txt " connection 'slack-work'?"];
                 Out Info [Txt "Cancelled"]] |}.
Proof.
  apply (@disconnect_declined Gateway.state Gateway.collaborators
           "slack-work" (refusing Gateway.slack_connected)
           (refusing Gateway.slack_connected)
           (refusing Gateway.slack_connected)
           (Gateway.connection "slack" "slack-work" "oauth3" true)
           (VStr "slack")).
  - reflexivity.
  - reflexivity.
  - reflexivity.
Defined.

Lemma remove_deletes_entry_witness :
  trace (run (remove "slack-work" true) Gateway.slack_connected)
  = [Get "/api/v1/user-connections";
     Delete "/api/v1/user-connections/slack-work";
     Out Success [Txt "✅ Removed: slack-work"]]
  /\ trace (run (remove "google-work" false)
              (refusing (Gateway.drive_pending None)))
     = [Get "/api/v1/user-connections";
        Out Warning [Txt "⚠️  This will permanently delete the connection and credentials"];
        Confirm [Txt "Remove "; Val (VStr "google_drive");
                 Txt " connection '"; Val (VStr "google-work"); Txt "'?"];
        Out Info [Txt "Cancelled"]].
Proof.
  split.
  - rewrite (proj1 (@remove_deletes_entry Gateway.state Gateway.collaborators
                      "slack-work" true Gateway.slack_connected
                      Gateway.slack_connected
                      (Connected (Gateway.connection "slack" "slack-work"
                                    "oauth3" true))
                      (Gateway.connection "slack" "slack-work" "oauth3" true)
                      (VStr "slack") eq_refl (or_introl eq_refl) eq_refl)
               Gateway.slack_connected
               Gateway.slack_connected
               VNone eq_refl eq_refl).
    reflexivity.
  - rewrite (proj2 (@remove_deletes_entry Gateway.state Gateway.collaborators
                      "google-work" false
                      (refusing (Gateway.drive_pending None))
                      (refusing (Gateway.drive_pending None))
                      (NotConnected (Gateway.connection "google_drive"
                                       "google-work" "oauth3" false))
                      (Gateway.connection "google_drive" "google-work"
                         "oauth3" false)
                      (VStr "google_drive") eq_refl (or_intror eq_refl) eq_refl)
               (refusing (Gateway.drive_pending None)) eq_refl eq_refl).
    reflexivity.
Defined.

Lemma other_tools_own_namespace_witness :
  add_config_endpoint "notion" "n1"
  = "/api/v1/tools/notion/config?connection_id=n1"
  /\ add_token_endpoint "notion" "n1"
     = "/api/v1/tools/notion/config?connection_id=n1"
  /\ disconnect_path "notion" "n1"
     = "/api/v1/tools/notion/connection?connection_id=n1"
  /\ connect_initiate_path "notion" (VStr "oauth3") "n1"
     = "/api/v1/tools/notion_oauth/connect/initiate?connection_id=n1&method=oauth3"
  /\ disconnect_path "google" "n1"
     = "/api/v1/tools/google/connection?connection_id=n1&tool_type=google".
Proof.
  apply (@other_tools_own_namespace "notion" "n1" (VStr "oauth3")).
  - reflexivity.
  - discriminate.
Defined.

End ToolsMoreFacts.
